(** * Verified Registry actor and the IPLD block-store wrappers

    A shallow embedding of
    - [actors/builtin/verifreg/verified_registry_actor.go]: the six
      exported methods of the verified registry actor, as functions from a
      runtime, the call parameters and the actor state to a [Result];
    - [support/ipld/store.go]: the in-memory block store and its
      synchronising and metric-recording wrappers, as state-passing
      functions over an interface class.

    The two persistent maps of the actor are HAMTs named by their root in
    the actor state.  A root determines the contents, so the state record
    holds the contents themselves as finite maps.  Store input/output
    failures abort a call with nothing committed, and are not part of the
    model: a call that commits is one in which every load and flush
    succeeded. *)

From Stdlib Require Import ZArith Lia.
From stdpp Require Import gmap strings.

(** ** Results of a call *)

(** The exit codes an invocation can abort with. [SysErrForbidden] is the
    code of a failed caller validation. *)
Inductive ExitCode : Type :=
  | ErrIllegalArgument
  | ErrIllegalState
  | ErrNotFound
  | SysErrForbidden.

(** A call returns normally, aborts with an exit code ([rt.Abortf]), or
    panics on a failed [Assert]. An abort or a panic commits nothing. *)
Inductive Result (A : Type) : Type :=
  | Ok (a : A)
  | Abort (code : ExitCode)
  | Panic.

Arguments Ok {A} a.
Arguments Abort {A} code.
Arguments Panic {A}.

(** Sequencing stops at the first abort or panic. *)
#[global] Instance Result_bind : MBind Result := fun A B k r =>
  match r with
  | Ok a => k a
  | Abort code => Abort code
  | Panic => Panic
  end.

(** [if cond { rt.Abortf(code, ...) }] *)
Definition abort_if (cond : bool) (code : ExitCode) : Result unit :=
  if cond then Abort code else Ok tt.

(** [Assert(cond)] *)
Definition Assert (cond : bool) : Result unit :=
  if cond then Ok tt else Panic.

Module exitcode.

(** Modelled from the spec: the errors of the [exitcode] package are
    declared outside the actor file. An error made from the exit code of a
    failed send wraps that code; an error made otherwise, as by
    [fmt.Errorf] or by the persistent maps, wraps none. *)
Record error : Type := {
  wrapped : option ExitCode
}.

(** An error that wraps no exit code. *)
Definition plain : error := {| wrapped := None |}.

(** Modelled from the spec: [exitcode.Unwrap] is declared outside the
    actor file. It is the exit code the error wraps, and the default when
    the error wraps none. *)
Definition Unwrap (err : error) (defaultExitCode : ExitCode) : ExitCode :=
  default defaultExitCode (wrapped err).

End exitcode.

Module verifreg.

(** [addr.Address] wraps a string. *)
Abbreviation Address := string.

(** [DataCap] and [abi.StoragePower] are big integers. *)
Abbreviation DataCap := Z.

(** The constants the actor takes from its surroundings. *)
Class Constants : Type := {
  SystemActorAddr : Address;
  StorageMarketActorAddr : Address;
  MinVerifiedDealSize : DataCap
}.

Record State : Type := {
  RootKey : Address;
  Verifiers : gmap string Z;
  VerifiedClients : gmap string Z
}.

(** Modelled from the spec: [ConstructState] is declared with the state
    type, outside the actor file. It "stores the id-form root key and two
    empty map roots". *)
Definition ConstructState (emptyMap : gmap string Z) (rootKey : Address) : State :=
  {| RootKey := rootKey; Verifiers := emptyMap; VerifiedClients := emptyMap |}.

(** What a method sees of the runtime during one invocation: the immediate
    caller and the address resolution of the moment. *)
Record Runtime : Type := {
  Caller : Address;
  ResolveAddress : Address -> option Address;
  (** Modelled from the spec: [builtin.ResolveToIDAddr] either "resolves
      to id-form" or returns an error. *)
  ResolveToIDAddr : Address -> option Address;
  (** Modelled from the spec: the error [builtin.ResolveToIDAddr] returns
      for an address it does not resolve. It wraps the exit code of the
      send that failed, when the resolution failed by a send. *)
  ResolveToIDAddr_err : Address -> exitcode.error
}.

Record AddVerifierParams : Type := {
  av_Address : Address;
  av_Allowance : DataCap
}.

Record AddVerifiedClientParams : Type := {
  avc_Address : Address;
  avc_Allowance : DataCap
}.

Record UseBytesParams : Type := {
  ub_Address : Address;
  ub_DealSize : DataCap
}.

Record RestoreBytesParams : Type := {
  rb_Address : Address;
  rb_DealSize : DataCap
}.

(** [rt.ValidateImmediateCallerIs(a)] *)
Definition ValidateImmediateCallerIs (rt : Runtime) (a : Address) : Result unit :=
  abort_if (negb (bool_decide (Caller rt = a))) SysErrForbidden.

(** [rt.ValidateImmediateCallerAcceptAny()] *)
Definition ValidateImmediateCallerAcceptAny (rt : Runtime) : Result unit := Ok tt.

(** Modelled from the spec: [builtin.RequireParam] aborts with
    [ErrIllegalArgument] when the predicate is false. *)
Definition RequireParam {A : Type} (r : option A) : Result A :=
  match r with
  | Some a => Ok a
  | None => Abort ErrIllegalArgument
  end.

(** Modelled from the spec: [builtin.RequireNoErr] is declared outside the
    actor file. When the error is not nil it aborts, with the exit code the
    error wraps, and with the default exit code when the error wraps none.
    [r] is the value of the call when its error is nil, [err] its error
    otherwise. *)
Definition RequireNoErr {A : Type} (r : option A) (err : exitcode.error)
    (defaultExitCode : ExitCode) : Result A :=
  match r with
  | Some a => Ok a
  | None => Abort (exitcode.Unwrap err defaultExitCode)
  end.

(** [found, err := m.Get(key, &out)] followed by
    [if !found { rt.Abortf(code, ...) }] *)
Definition found_or_abort {A : Type} (r : option A) (code : ExitCode) : Result A :=
  match r with
  | Some a => Ok a
  | None => Abort code
  end.

(** Modelled from the spec: the persistent map's [Delete] returns an error
    when the key is absent. *)
Definition map_Delete (k : Address) (m : gmap string Z) : option (gmap string Z) :=
  match m !! k with
  | Some _ => Some (delete k m)
  | None => None
  end.

Section Methods.

Context `{C : Constants}.

Definition Constructor (rt : Runtime) (rootKey : Address) : Result State :=
  ValidateImmediateCallerIs rt SystemActorAddr;;
  idAddr ← RequireParam (ResolveAddress rt rootKey);
  Ok (ConstructState ∅ idAddr).

Definition AddVerifier (rt : Runtime) (params : AddVerifierParams) (st : State)
  : Result State :=
  abort_if (av_Allowance params <? MinVerifiedDealSize)%Z ErrIllegalArgument;;
  verifier ← RequireNoErr (ResolveToIDAddr rt (av_Address params))
    (ResolveToIDAddr_err rt (av_Address params)) ErrIllegalState;
  ValidateImmediateCallerIs rt (RootKey st);;
  abort_if (bool_decide (verifier = RootKey st)) ErrIllegalArgument;;
  (* transaction *)
  let verifiers := Verifiers st in
  let verifiedClients := VerifiedClients st in
  (* A verified client cannot become a verifier *)
  let found := bool_decide (is_Some (verifiedClients !! verifier)) in
  abort_if found ErrIllegalArgument;;
  let verifiers := <[verifier := av_Allowance params]> verifiers in
  Ok {| RootKey := RootKey st;
        Verifiers := verifiers;
        VerifiedClients := VerifiedClients st |}.

Definition RemoveVerifier (rt : Runtime) (verifierAddr : Address) (st : State)
  : Result State :=
  verifier ← RequireNoErr (ResolveToIDAddr rt verifierAddr)
    (ResolveToIDAddr_err rt verifierAddr) ErrIllegalState;
  ValidateImmediateCallerIs rt (RootKey st);;
  (* transaction *)
  verifiers ← RequireNoErr (map_Delete verifier (Verifiers st))
    exitcode.plain ErrIllegalState;
  Ok {| RootKey := RootKey st;
        Verifiers := verifiers;
        VerifiedClients := VerifiedClients st |}.

Definition AddVerifiedClient (rt : Runtime) (params : AddVerifiedClientParams)
    (st : State) : Result State :=
  (* The caller will be verified by checking the verifiers table below. *)
  ValidateImmediateCallerAcceptAny rt;;
  abort_if (avc_Allowance params <? MinVerifiedDealSize)%Z ErrIllegalArgument;;
  client ← RequireNoErr (ResolveToIDAddr rt (avc_Address params))
    (ResolveToIDAddr_err rt (avc_Address params)) ErrIllegalState;
  abort_if (bool_decide (RootKey st = client)) ErrIllegalArgument;;
  (* transaction *)
  let verifiers := Verifiers st in
  let verifiedClients := VerifiedClients st in
  (* Validate caller is one of the verifiers. *)
  let verifier := Caller rt in
  verifierCap ← found_or_abort (verifiers !! verifier) ErrNotFound;
  (* Validate client to be added isn't a verifier *)
  abort_if (bool_decide (is_Some (verifiers !! client))) ErrIllegalArgument;;
  (* Compute new verifier cap and update. *)
  abort_if (verifierCap <? avc_Allowance params)%Z ErrIllegalArgument;;
  let newVerifierCap := (verifierCap - avc_Allowance params)%Z in
  let verifiers := <[verifier := newVerifierCap]> verifiers in
  (* This is a one-time, upfront allocation. *)
  abort_if (bool_decide (is_Some (verifiedClients !! client))) ErrIllegalArgument;;
  let verifiedClients := <[client := avc_Allowance params]> verifiedClients in
  Ok {| RootKey := RootKey st;
        Verifiers := verifiers;
        VerifiedClients := verifiedClients |}.

Definition UseBytes (rt : Runtime) (params : UseBytesParams) (st : State)
  : Result State :=
  ValidateImmediateCallerIs rt StorageMarketActorAddr;;
  client ← RequireNoErr (ResolveToIDAddr rt (ub_Address params))
    (ResolveToIDAddr_err rt (ub_Address params)) ErrIllegalState;
  abort_if (ub_DealSize params <? MinVerifiedDealSize)%Z ErrIllegalArgument;;
  (* transaction *)
  let verifiedClients := VerifiedClients st in
  vcCap ← found_or_abort (verifiedClients !! client) ErrNotFound;
  Assert (vcCap >=? 0)%Z;;
  abort_if (ub_DealSize params >? vcCap)%Z ErrIllegalArgument;;
  let newVcCap := (vcCap - ub_DealSize params)%Z in
  let verifiedClients :=
    if (newVcCap <? MinVerifiedDealSize)%Z
    then
      (* Delete entry if remaining DataCap is less than MinVerifiedDealSize. *)
      delete client verifiedClients
    else <[client := newVcCap]> verifiedClients in
  Ok {| RootKey := RootKey st;
        Verifiers := Verifiers st;
        VerifiedClients := verifiedClients |}.

Definition RestoreBytes (rt : Runtime) (params : RestoreBytesParams) (st : State)
  : Result State :=
  ValidateImmediateCallerIs rt StorageMarketActorAddr;;
  abort_if (rb_DealSize params <? MinVerifiedDealSize)%Z ErrIllegalArgument;;
  client ← RequireNoErr (ResolveToIDAddr rt (rb_Address params))
    (ResolveToIDAddr_err rt (rb_Address params)) ErrIllegalState;
  abort_if (bool_decide (RootKey st = client)) ErrIllegalArgument;;
  (* transaction *)
  let verifiedClients := VerifiedClients st in
  let verifiers := Verifiers st in
  (* validate we are NOT attempting to do this for a verifier *)
  abort_if (bool_decide (is_Some (verifiers !! client))) ErrIllegalArgument;;
  let vcCap := default 0%Z (verifiedClients !! client) in
  let newVcCap := (vcCap + rb_DealSize params)%Z in
  let verifiedClients := <[client := newVcCap]> verifiedClients in
  Ok {| RootKey := RootKey st;
        Verifiers := Verifiers st;
        VerifiedClients := verifiedClients |}.

(** The exported methods that act on an existing state (method numbers 2
    to 6 of [Exports]), with their parameters. *)
Inductive Method : Type :=
  | MAddVerifier (params : AddVerifierParams)
  | MRemoveVerifier (verifierAddr : Address)
  | MAddVerifiedClient (params : AddVerifiedClientParams)
  | MUseBytes (params : UseBytesParams)
  | MRestoreBytes (params : RestoreBytesParams).

Definition invoke (rt : Runtime) (m : Method) (st : State) : Result State :=
  match m with
  | MAddVerifier params => AddVerifier rt params st
  | MRemoveVerifier verifierAddr => RemoveVerifier rt verifierAddr st
  | MAddVerifiedClient params => AddVerifiedClient rt params st
  | MUseBytes params => UseBytes rt params st
  | MRestoreBytes params => RestoreBytes rt params st
  end.

(** The committed states: the state a successful [Constructor] creates,
    and every state a successful method call commits from a committed
    state. Each call has a runtime of its own. *)
Inductive reachable : State -> Prop :=
  | reachable_Constructor rt rootKey st :
      Constructor rt rootKey = Ok st -> reachable st
  | reachable_invoke rt m st st' :
      reachable st -> invoke rt m st = Ok st' -> reachable st'.

End Methods.

End verifreg.

(** ** The scenario of the specification

    [Constructor(R)], then [AddVerifier({V, 10000})] by [R], then
    [AddVerifiedClient({C, 4000})] by [V], with a minimum deal size of
    1024. Addresses that start with [f0] are id addresses and resolve to
    themselves, the others do not resolve. *)
Module scenario.

Import verifreg.

#[export] Instance constants : Constants := {|
  SystemActorAddr := "f00";
  StorageMarketActorAddr := "f05";
  MinVerifiedDealSize := 1024%Z
|}.

Definition R : Address := "f0100".
Definition V : Address := "f0101".
Definition C : Address := "f0102".

Definition resolve (a : Address) : option Address :=
  if String.prefix "f0" a then Some a else None.

Definition runtime (caller : Address) : Runtime :=
  {| Caller := caller; ResolveAddress := resolve; ResolveToIDAddr := resolve;
     ResolveToIDAddr_err := fun _ => exitcode.plain |}.

Definition constructed : State :=
  {| RootKey := R; Verifiers := ∅; VerifiedClients := ∅ |}.

Definition with_verifier : State :=
  {| RootKey := R; Verifiers := {[V := 10000%Z]}; VerifiedClients := ∅ |}.

Definition with_client : State :=
  {| RootKey := R;
     Verifiers := {[V := 6000%Z]};
     VerifiedClients := {[C := 4000%Z]} |}.

(** Continued with [UseBytes({C, 3500})], which leaves 500 and so deletes
    the client, and [RestoreBytes({C, 2000})], both by the storage market. *)
Definition drained : State :=
  {| RootKey := R; Verifiers := {[V := 6000%Z]}; VerifiedClients := ∅ |}.

Definition restored : State :=
  {| RootKey := R;
     Verifiers := {[V := 6000%Z]};
     VerifiedClients := {[C := 2000%Z]} |}.

(** [AddVerifier({V, 2000})] by [R] once [V] is a verifier with 10000. *)
Definition with_verifier_again : State :=
  {| RootKey := R; Verifiers := {[V := 2000%Z]}; VerifiedClients := ∅ |}.

(** An address that does not resolve, and an id address with no role. *)
Definition unknown : Address := "t3unknown".
Definition X : Address := "f0999".

End scenario.

(** * Block stores *)

Module cid.
(** [cid.Cid] wraps a string. *)
Definition Cid : Type := string.
End cid.

Module block.
(** What the stores use of a [block.Block]: its bytes and its cid. *)
Record Block : Type := {
  RawData : list Byte.byte;
  Cid : cid.Cid
}.
End block.

Module ipld.

Definition error : Type := string.

(** A Go call returns or panics. *)
Inductive Go (A : Type) : Type :=
  | Returns (a : A)
  | Panics.

Arguments Returns {A} a.
Arguments Panics {A}.

(** [ipldcbor.IpldBlockstore]. The stores have pointer receivers, so a call
    also gives the store after it. [Get] returns a pair of a block and an
    error, each of which may be nil. *)
Class IpldBlockstore (S : Type) : Type := {
  Get : S -> cid.Cid -> S * Go (option block.Block * option error);
  Put : S -> block.Block -> S * Go (option error)
}.

(** [uint64] arithmetic wraps around. *)
Definition uint64 (z : Z) : Z := (z mod 2 ^ 64)%Z.

(** [uint64(len(b.RawData()))] *)
Definition size (b : block.Block) : Z := Z.of_nat (length (block.RawData b)).

(** A basic in-memory block store. *)
Record BlockStoreInMemory : Type := {
  data : gmap string block.Block
}.

Definition NewBlockStoreInMemory : BlockStoreInMemory := {| data := ∅ |}.

#[export] Instance BlockStoreInMemory_store : IpldBlockstore BlockStoreInMemory := {|
  Get mb c :=
    match data mb !! c with
    | Some d => (mb, Returns (Some d, None))
    | None => (mb, Returns (None, Some "not found"%string))
    end;
  Put mb b := ({| data := <[block.Cid b := b]> (data mb) |}, Returns None)
|}.

(** Synchronized block store wrapper. The mutex is held for the length of
    the call, which a sequential model does not see. *)
Record SyncBlockStore (S : Type) : Type := {
  ss_bs : S
}.

Arguments ss_bs {S} _.

Definition NewSyncBlockStore {S : Type} (bs : S) : SyncBlockStore S :=
  {| ss_bs := bs |}.

#[export] Instance SyncBlockStore_store {S : Type} `{IpldBlockstore S}
  : IpldBlockstore (SyncBlockStore S) := {|
  Get ss c := let '(bs, r) := Get (ss_bs ss) c in ({| ss_bs := bs |}, r);
  Put ss b := let '(bs, r) := Put (ss_bs ss) b in ({| ss_bs := bs |}, r)
|}.

(** Metric-recording block store wrapper. *)
Record MetricsBlockStore (S : Type) : Type := {
  ms_bs : S;
  Writes : Z;
  WriteBytes : Z;
  Reads : Z;
  ReadBytes : Z
}.

Arguments ms_bs {S} _.
Arguments Writes {S} _.
Arguments WriteBytes {S} _.
Arguments Reads {S} _.
Arguments ReadBytes {S} _.

Definition NewMetricsBlockStore {S : Type} (underlying : S) : MetricsBlockStore S :=
  {| ms_bs := underlying;
     Writes := 0; WriteBytes := 0; Reads := 0; ReadBytes := 0 |}.

Section Metrics.

Context {S : Type} `{IpldBlockstore S}.

Definition MetricsBlockStore_Get (ms : MetricsBlockStore S) (c : cid.Cid)
  : MetricsBlockStore S * Go (option block.Block * option error) :=
  (* ms.Reads++ *)
  let reads := uint64 (Reads ms + 1) in
  let '(bs, r) := Get (ms_bs ms) c in
  let ms := {| ms_bs := bs; Writes := Writes ms; WriteBytes := WriteBytes ms;
               Reads := reads; ReadBytes := ReadBytes ms |} in
  match r with
  | Panics => (ms, Panics)
  | Returns (blk, Some err) => (ms, Returns (blk, Some err))
  | Returns (None, None) =>
      (* blk.RawData() on a nil block *)
      (ms, Panics)
  | Returns (Some blk, None) =>
      ({| ms_bs := bs; Writes := Writes ms; WriteBytes := WriteBytes ms;
          Reads := reads; ReadBytes := uint64 (ReadBytes ms + size blk) |},
       Returns (Some blk, None))
  end.

Definition MetricsBlockStore_Put (ms : MetricsBlockStore S) (b : block.Block)
  : MetricsBlockStore S * Go (option error) :=
  (* ms.Writes++ *)
  let writes := uint64 (Writes ms + 1) in
  (* ms.WriteBytes += uint64(len(b.RawData())) *)
  let writeBytes := uint64 (WriteBytes ms + size b) in
  let '(bs, r) := Put (ms_bs ms) b in
  ({| ms_bs := bs; Writes := writes; WriteBytes := writeBytes;
      Reads := Reads ms; ReadBytes := ReadBytes ms |}, r).

Definition ReadCount (ms : MetricsBlockStore S) : Z := Reads ms.
Definition WriteCount (ms : MetricsBlockStore S) : Z := Writes ms.
Definition ReadSize (ms : MetricsBlockStore S) : Z := ReadBytes ms.
Definition WriteSize (ms : MetricsBlockStore S) : Z := WriteBytes ms.

End Metrics.

#[export] Instance MetricsBlockStore_store {S : Type} `{IpldBlockstore S}
  : IpldBlockstore (MetricsBlockStore S) := {|
  Get := MetricsBlockStore_Get;
  Put := MetricsBlockStore_Put
|}.

(** A store that holds nothing and refuses every block, to exercise the
    wrappers on failing calls. *)
Inductive FailingStore : Type := failing.

#[export] Instance FailingStore_store : IpldBlockstore FailingStore := {|
  Get s c := (s, Returns (None, Some "not found"%string));
  Put s b := (s, Returns (Some "read-only store"%string))
|}.

(** A block of three bytes. *)
Definition sample : block.Block :=
  {| block.RawData := [Byte.x01; Byte.x02; Byte.x03]; block.Cid := "sample" |}.

End ipld.

(** * Measures and runs used by the further properties *)

Module accounting.

(** The DataCap a map holds in all: the sum of its values. *)
Definition total (m : gmap string Z) : Z :=
  map_fold (fun _ v acc => (v + acc)%Z) 0%Z m.

(** The cap of an address in a map, zero when it has no entry. *)
Definition cap_of (m : gmap string Z) (a : string) : Z := default 0%Z (m !! a).

End accounting.

Module trace.

Import ipld.

(** One call on a block store. *)
Inductive Op : Type :=
  | OpGet (c : cid.Cid)
  | OpPut (b : block.Block).

(** The store after one call, whatever the call returned. *)
Definition step {S : Type} `{IpldBlockstore S} (s : S) (o : Op) : S :=
  match o with
  | OpGet c => fst (Get s c)
  | OpPut b => fst (Put s b)
  end.

(** The store after a sequence of calls, first call first. *)
Definition run {S : Type} `{IpldBlockstore S} (s : S) (ops : list Op) : S :=
  foldl step s ops.

(** The values of a [uint64]. *)
Definition is_uint64 (z : Z) : Prop := (0 <= z < 2 ^ 64)%Z.

Definition is_put (o : Op) : bool :=
  match o with OpPut _ => true | OpGet _ => false end.

(** The number of [Put]s and of [Get]s of a sequence, and the bytes of the
    blocks it puts. *)
Definition puts (ops : list Op) : Z :=
  foldr (fun o acc => if is_put o then 1 + acc else acc)%Z 0%Z ops.
Definition gets (ops : list Op) : Z :=
  foldr (fun o acc => if is_put o then acc else 1 + acc)%Z 0%Z ops.
Definition put_bytes (ops : list Op) : Z :=
  foldr (fun o acc => match o with OpPut b => size b + acc | OpGet _ => acc end)%Z
        0%Z ops.

End trace.

(** Further states of the scenario. *)
Module scenario_more.

Import verifreg.

(** [RemoveVerifier(V)] by [R] once [C] is a client of [V]. *)
Definition without_verifier : State :=
  {| RootKey := scenario.R;
     Verifiers := ∅;
     VerifiedClients := {[scenario.C := 4000%Z]} |}.

(** [AddVerifiedClient({C, 9500})] by [V] in place of the 4000 of the
    scenario: [V] is left with 500. *)
Definition low_verifier : State :=
  {| RootKey := scenario.R;
     Verifiers := {[scenario.V := 500%Z]};
     VerifiedClients := {[scenario.C := 9500%Z]} |}.

(** A runtime in which the resolution of an address that is not an id
    address fails by the send to it, which returns [ErrNotFound]. *)
Definition runtime_send_fails (caller : Address) : Runtime :=
  {| Caller := caller;
     ResolveAddress := scenario.resolve;
     ResolveToIDAddr := scenario.resolve;
     ResolveToIDAddr_err := fun _ => {| exitcode.wrapped := Some ErrNotFound |} |}.

(** The calls of a store that puts the sample block and reads it back,
    after a read that misses. *)
Definition ops : list trace.Op :=
  [trace.OpGet "sample"; trace.OpPut ipld.sample; trace.OpGet "sample"].

End scenario_more.

(** * Properties of the verified registry actor *)

Section VerifregProperties.

Import verifreg.
Context `{C : Constants}.

Local Open Scope Z_scope.

(** ** When a call commits *)

Lemma abort_if_Ok cond code u : abort_if cond code = Ok u -> cond = false.
Proof. destruct cond; simpl; congruence. Qed.

Lemma bool_decide_is_Some_false {A} (o : option A) :
  bool_decide (is_Some o) = false -> o = None.
Proof.
  intros H. apply bool_decide_eq_false in H.
  destruct o; [exfalso; apply H; eauto | reflexivity].
Qed.

(** Splits the equation of a committed call along the checks of the method. *)
Ltac commits H :=
  repeat match type of H with
  | context [abort_if ?c ?code] =>
      let E := fresh "E" in destruct c eqn:E; simpl in H; [discriminate H |]
  | context [RequireNoErr ?o ?err ?code] =>
      let E := fresh "E" in destruct o eqn:E; simpl in H; [| discriminate H]
  | context [found_or_abort ?o ?code] =>
      let E := fresh "E" in destruct o eqn:E; simpl in H; [| discriminate H]
  | context [RequireParam ?o] =>
      let E := fresh "E" in destruct o eqn:E; simpl in H; [| discriminate H]
  | context [Assert ?c] =>
      let E := fresh "E" in destruct c eqn:E; simpl in H; [| discriminate H]
  end.

Lemma Constructor_Ok rt rootKey st :
  Constructor rt rootKey = Ok st ->
  exists idAddr,
    Caller rt = SystemActorAddr /\
    ResolveAddress rt rootKey = Some idAddr /\
    st = {| RootKey := idAddr; Verifiers := ∅; VerifiedClients := ∅ |}.
Proof.
  unfold Constructor, ValidateImmediateCallerIs. intros H. commits H.
  injection H as <-. eexists. split; [| split; [reflexivity | reflexivity]].
  apply negb_false_iff, bool_decide_eq_true in E. exact E.
Qed.

Lemma AddVerifier_Ok rt params st st' :
  AddVerifier rt params st = Ok st' ->
  exists verifier,
    MinVerifiedDealSize <= av_Allowance params /\
    ResolveToIDAddr rt (av_Address params) = Some verifier /\
    Caller rt = RootKey st /\
    verifier <> RootKey st /\
    VerifiedClients st !! verifier = None /\
    st' = {| RootKey := RootKey st;
             Verifiers := <[verifier := av_Allowance params]> (Verifiers st);
             VerifiedClients := VerifiedClients st |}.
Proof.
  unfold AddVerifier, ValidateImmediateCallerIs. intros H. commits H.
  injection H as <-. eexists. repeat split; eauto.
  - apply Z.ltb_ge. assumption.
  - apply negb_false_iff, bool_decide_eq_true in E1. exact E1.
  - apply bool_decide_eq_false in E2. exact E2.
  - apply bool_decide_is_Some_false. assumption.
Qed.

Lemma RemoveVerifier_Ok rt verifierAddr st st' :
  RemoveVerifier rt verifierAddr st = Ok st' ->
  exists verifier,
    ResolveToIDAddr rt verifierAddr = Some verifier /\
    Caller rt = RootKey st /\
    is_Some (Verifiers st !! verifier) /\
    st' = {| RootKey := RootKey st;
             Verifiers := delete verifier (Verifiers st);
             VerifiedClients := VerifiedClients st |}.
Proof.
  unfold RemoveVerifier, ValidateImmediateCallerIs. intros H. commits H.
  injection H as <-. unfold map_Delete in E1.
  match type of E1 with
  | context [Verifiers st !! ?v] =>
      destruct (Verifiers st !! v) eqn:L; [| discriminate E1]
  end.
  injection E1 as <-. eexists. repeat split; eauto.
  apply negb_false_iff, bool_decide_eq_true in E0. exact E0.
Qed.

Lemma AddVerifiedClient_Ok rt params st st' :
  AddVerifiedClient rt params st = Ok st' ->
  exists client verifierCap,
    MinVerifiedDealSize <= avc_Allowance params /\
    ResolveToIDAddr rt (avc_Address params) = Some client /\
    RootKey st <> client /\
    Verifiers st !! Caller rt = Some verifierCap /\
    Verifiers st !! client = None /\
    avc_Allowance params <= verifierCap /\
    VerifiedClients st !! client = None /\
    st' = {| RootKey := RootKey st;
             Verifiers :=
               <[Caller rt := verifierCap - avc_Allowance params]> (Verifiers st);
             VerifiedClients :=
               <[client := avc_Allowance params]> (VerifiedClients st) |}.
Proof.
  unfold AddVerifiedClient, ValidateImmediateCallerAcceptAny. intros H.
  simpl in H. commits H. injection H as <-.
  do 2 eexists. repeat split; eauto.
  - apply Z.ltb_ge. assumption.
  - apply bool_decide_eq_false in E1. exact E1.
  - apply bool_decide_is_Some_false. assumption.
  - apply Z.ltb_ge. assumption.
  - apply bool_decide_is_Some_false. assumption.
Qed.

Lemma UseBytes_Ok rt params st st' :
  UseBytes rt params st = Ok st' ->
  exists client vcCap,
    Caller rt = StorageMarketActorAddr /\
    ResolveToIDAddr rt (ub_Address params) = Some client /\
    MinVerifiedDealSize <= ub_DealSize params /\
    VerifiedClients st !! client = Some vcCap /\
    0 <= vcCap /\
    ub_DealSize params <= vcCap /\
    st' = {| RootKey := RootKey st;
             Verifiers := Verifiers st;
             VerifiedClients :=
               if vcCap - ub_DealSize params <? MinVerifiedDealSize
               then delete client (VerifiedClients st)
               else <[client := vcCap - ub_DealSize params]> (VerifiedClients st) |}.
Proof.
  unfold UseBytes, ValidateImmediateCallerIs. intros H. commits H.
  injection H as <-. do 2 eexists. repeat split; eauto.
  - apply negb_false_iff, bool_decide_eq_true in E. exact E.
  - apply Z.ltb_ge. assumption.
  - apply Z.geb_le. assumption.
  - rewrite Z.gtb_ltb in E4. apply Z.ltb_ge in E4. exact E4.
Qed.

Lemma RestoreBytes_Ok rt params st st' :
  RestoreBytes rt params st = Ok st' ->
  exists client,
    Caller rt = StorageMarketActorAddr /\
    MinVerifiedDealSize <= rb_DealSize params /\
    ResolveToIDAddr rt (rb_Address params) = Some client /\
    RootKey st <> client /\
    Verifiers st !! client = None /\
    st' = {| RootKey := RootKey st;
             Verifiers := Verifiers st;
             VerifiedClients :=
               <[client := default 0 (VerifiedClients st !! client)
                           + rb_DealSize params]> (VerifiedClients st) |}.
Proof.
  unfold RestoreBytes, ValidateImmediateCallerIs. intros H. commits H.
  injection H as <-. eexists. repeat split; eauto.
  - apply negb_false_iff, bool_decide_eq_true in E. exact E.
  - apply Z.ltb_ge. assumption.
  - apply bool_decide_eq_false in E2. exact E2.
  - apply bool_decide_is_Some_false. assumption.
Qed.

(** ** The scenario of the specification is a run of the actor *)

Lemma scenario_constructed :
  Constructor (C := scenario.constants) (scenario.runtime "f00") scenario.R
  = Ok scenario.constructed.
Proof. reflexivity. Qed.

Lemma scenario_with_verifier :
  AddVerifier (C := scenario.constants) (scenario.runtime scenario.R)
    {| av_Address := scenario.V; av_Allowance := 10000 |} scenario.constructed
  = Ok scenario.with_verifier.
Proof. reflexivity. Qed.

Lemma scenario_with_client :
  AddVerifiedClient (C := scenario.constants) (scenario.runtime scenario.V)
    {| avc_Address := scenario.C; avc_Allowance := 4000 |} scenario.with_verifier
  = Ok scenario.with_client.
Proof. vm_compute. reflexivity. Qed.

Lemma scenario_reachable :
  reachable (C := scenario.constants) scenario.with_client.
Proof.
  eapply reachable_invoke with (m := MAddVerifiedClient _);
    [| exact scenario_with_client].
  eapply reachable_invoke with (m := MAddVerifier _);
    [| exact scenario_with_verifier].
  eapply reachable_Constructor. exact scenario_constructed.
Qed.

Lemma scenario_drained :
  UseBytes (C := scenario.constants) (scenario.runtime "f05")
    {| ub_Address := scenario.C; ub_DealSize := 3500 |} scenario.with_client
  = Ok scenario.drained.
Proof. vm_compute. reflexivity. Qed.

Lemma scenario_restored :
  RestoreBytes (C := scenario.constants) (scenario.runtime "f05")
    {| rb_Address := scenario.C; rb_DealSize := 2000 |} scenario.drained
  = Ok scenario.restored.
Proof. vm_compute. reflexivity. Qed.

Lemma scenario_restored_reachable :
  reachable (C := scenario.constants) scenario.restored.
Proof.
  eapply reachable_invoke with (m := MRestoreBytes _);
    [| exact scenario_restored].
  eapply reachable_invoke with (m := MUseBytes _);
    [| exact scenario_drained].
  exact scenario_reachable.
Qed.

Lemma scenario_with_verifier_again :
  AddVerifier (C := scenario.constants) (scenario.runtime scenario.R)
    {| av_Address := scenario.V; av_Allowance := 2000 |} scenario.with_verifier
  = Ok scenario.with_verifier_again.
Proof. vm_compute. reflexivity. Qed.

(** The aborting calls of the scenario. *)
Example scenario_below_minimum :
  AddVerifiedClient (C := scenario.constants) (scenario.runtime scenario.V)
    {| avc_Address := "f0103"; avc_Allowance := 1023 |} scenario.with_client
  = Abort ErrIllegalArgument.
Proof. reflexivity. Qed.

Example scenario_client_as_verifier :
  AddVerifier (C := scenario.constants) (scenario.runtime scenario.R)
    {| av_Address := scenario.C; av_Allowance := 2000 |} scenario.with_client
  = Abort ErrIllegalArgument.
Proof. vm_compute. reflexivity. Qed.

Example scenario_unknown_verifier :
  AddVerifiedClient (C := scenario.constants) (scenario.runtime scenario.X)
    {| avc_Address := scenario.C; avc_Allowance := 2000 |} scenario.constructed
  = Abort ErrNotFound.
Proof. vm_compute. reflexivity. Qed.

Example scenario_remove_absent_verifier :
  RemoveVerifier (scenario.runtime scenario.R)
    scenario.X scenario.with_client
  = Abort ErrIllegalState.
Proof. vm_compute. reflexivity. Qed.

(** ** Role exclusivity *)

Lemma Constructor_maps_empty rt rootKey st :
  Constructor rt rootKey = Ok st ->
  Verifiers st = ∅ /\ VerifiedClients st = ∅.
Proof.
  intros H. apply Constructor_Ok in H as (idAddr & _ & _ & ->). split; reflexivity.
Qed.

Lemma invoke_keeps_roles_apart rt m st st' :
  invoke rt m st = Ok st' ->
  (forall a, is_Some (Verifiers st !! a) -> VerifiedClients st !! a = None) ->
  forall a, is_Some (Verifiers st' !! a) -> VerifiedClients st' !! a = None.
Proof.
  intros Hcall Hinv a. destruct m as [p | va | p | p | p]; simpl in Hcall.
  - apply AddVerifier_Ok in Hcall as (v & _ & _ & _ & _ & Hclient & ->). simpl.
    destruct (decide (v = a)) as [-> | Hne]; [intros _; exact Hclient |].
    rewrite lookup_insert_ne by exact Hne. apply Hinv.
  - apply RemoveVerifier_Ok in Hcall as (v & _ & _ & _ & ->). simpl.
    destruct (decide (v = a)) as [-> | Hne].
    + rewrite lookup_delete_eq. intros [x Hx]. discriminate Hx.
    + rewrite lookup_delete_ne by exact Hne. apply Hinv.
  - apply AddVerifiedClient_Ok in Hcall
      as (c & vcap & _ & _ & _ & Hcaller & Hc & _ & _ & ->). simpl.
    intros Ha.
    assert (is_Some (Verifiers st !! a)) as Hold.
    { destruct (decide (Caller rt = a)) as [<- | Hne]; [eauto |].
      rewrite lookup_insert_ne in Ha by exact Hne. exact Ha. }
    destruct (decide (c = a)) as [-> | Hne].
    + rewrite Hc in Hold. destruct Hold as [x Hx]. discriminate Hx.
    + rewrite lookup_insert_ne by exact Hne. apply Hinv, Hold.
  - apply UseBytes_Ok in Hcall as (c & cap & _ & _ & _ & Hc & _ & _ & ->). simpl.
    intros Ha. destruct (cap - ub_DealSize p <? MinVerifiedDealSize).
    + destruct (decide (c = a)) as [-> | Hne]; [apply lookup_delete_eq |].
      rewrite lookup_delete_ne by exact Hne. apply Hinv, Ha.
    + destruct (decide (c = a)) as [-> | Hne].
      * apply Hinv in Ha. rewrite Hc in Ha. discriminate Ha.
      * rewrite lookup_insert_ne by exact Hne. apply Hinv, Ha.
  - apply RestoreBytes_Ok in Hcall as (c & _ & _ & _ & _ & Hc & ->). simpl.
    intros Ha. destruct (decide (c = a)) as [-> | Hne].
    + rewrite Hc in Ha. destruct Ha as [x Hx]. discriminate Hx.
    + rewrite lookup_insert_ne by exact Hne. apply Hinv, Ha.
Qed.

(** C1. After every sequence of committed calls, no address is a key of
    both the [Verifiers] map and the [VerifiedClients] map. *)
Theorem C1_roles_disjoint st :
  reachable st ->
  dom (Verifiers st) ∩ dom (VerifiedClients st) = ∅ /\
  forall a, ~ (is_Some (Verifiers st !! a) /\ is_Some (VerifiedClients st !! a)).
Proof.
  intros Hreach.
  assert (forall a, is_Some (Verifiers st !! a) -> VerifiedClients st !! a = None)
    as Hinv.
  { induction Hreach as [rt rootKey st Hc | rt m st st' _ IH Hcall].
    - apply Constructor_maps_empty in Hc as [Hv _]. intros a. rewrite Hv.
      rewrite lookup_empty. intros [x Hx]. discriminate Hx.
    - exact (invoke_keeps_roles_apart _ _ _ _ Hcall IH). }
  split.
  - apply set_eq. intros a. rewrite elem_of_intersection, !elem_of_dom.
    split; [| intros Ha; exfalso; exact (not_elem_of_empty _ Ha)].
    intros [Hv Hc]. apply Hinv in Hv. rewrite Hv in Hc.
    destruct Hc as [x Hx]. discriminate Hx.
  - intros a [Hv Hc]. apply Hinv in Hv. rewrite Hv in Hc.
    destruct Hc as [x Hx]. discriminate Hx.
Qed.

(** ** Conservation in [AddVerifiedClient] *)

(** C2. A committed [AddVerifiedClient] by caller [u] for the resolved
    client [c] gives the client the allowance, takes the allowance from the
    caller's cap, so that the two new caps add up to the caller's old cap,
    and [c] was not a verified client before. *)
Theorem C2_AddVerifiedClient_conservation rt params st st' :
  AddVerifiedClient rt params st = Ok st' ->
  exists c oldCap newCap clientCap,
    ResolveToIDAddr rt (avc_Address params) = Some c /\
    Verifiers st !! Caller rt = Some oldCap /\
    Verifiers st' !! Caller rt = Some newCap /\
    VerifiedClients st' !! c = Some clientCap /\
    clientCap = avc_Allowance params /\
    newCap = oldCap - avc_Allowance params /\
    newCap + clientCap = oldCap /\
    VerifiedClients st !! c = None.
Proof.
  intros H.
  apply AddVerifiedClient_Ok in H
    as (c & cap & _ & Hres & _ & Hcaller & _ & _ & Hfresh & ->).
  exists c, cap, (cap - avc_Allowance params), (avc_Allowance params). simpl.
  rewrite !lookup_insert_eq. repeat split; try assumption. lia.
Qed.

(** ** The floor of the client caps *)

Lemma invoke_keeps_client_floor rt m st st' :
  0 <= MinVerifiedDealSize ->
  invoke rt m st = Ok st' ->
  (forall k v, VerifiedClients st !! k = Some v -> MinVerifiedDealSize <= v) ->
  forall k v, VerifiedClients st' !! k = Some v -> MinVerifiedDealSize <= v.
Proof.
  intros Hmin Hcall Hinv k v. destruct m as [p | va | p | p | p]; simpl in Hcall.
  - apply AddVerifier_Ok in Hcall as (a & _ & _ & _ & _ & _ & ->). apply Hinv.
  - apply RemoveVerifier_Ok in Hcall as (a & _ & _ & _ & ->). apply Hinv.
  - apply AddVerifiedClient_Ok in Hcall
      as (c & cap & Hge & _ & _ & _ & _ & _ & _ & ->). simpl.
    destruct (decide (c = k)) as [-> | Hne].
    + rewrite lookup_insert_eq. intros [= <-]. exact Hge.
    + rewrite lookup_insert_ne by exact Hne. apply Hinv.
  - apply UseBytes_Ok in Hcall as (c & cap & _ & _ & _ & _ & _ & _ & ->). simpl.
    destruct (cap - ub_DealSize p <? MinVerifiedDealSize) eqn:Hlow.
    + destruct (decide (c = k)) as [-> | Hne].
      * rewrite lookup_delete_eq. discriminate.
      * rewrite lookup_delete_ne by exact Hne. apply Hinv.
    + apply Z.ltb_ge in Hlow. destruct (decide (c = k)) as [-> | Hne].
      * rewrite lookup_insert_eq. intros [= <-]. exact Hlow.
      * rewrite lookup_insert_ne by exact Hne. apply Hinv.
  - apply RestoreBytes_Ok in Hcall as (c & _ & Hge & _ & _ & _ & ->). simpl.
    destruct (decide (c = k)) as [-> | Hne].
    + rewrite lookup_insert_eq. intros [= <-].
      destruct (VerifiedClients st !! k) as [old |] eqn:Hold; simpl.
      * apply Hinv in Hold. lia.
      * lia.
    + rewrite lookup_insert_ne by exact Hne. apply Hinv.
Qed.

Lemma reachable_client_floor st :
  0 <= MinVerifiedDealSize ->
  reachable st ->
  forall k v, VerifiedClients st !! k = Some v -> MinVerifiedDealSize <= v.
Proof.
  intros Hmin Hreach.
  induction Hreach as [rt rootKey st Hc | rt m st st' _ IH Hcall].
  - apply Constructor_maps_empty in Hc as [_ Hc]. intros k v. rewrite Hc.
    rewrite lookup_empty. discriminate.
  - exact (invoke_keeps_client_floor _ _ _ _ Hmin Hcall IH).
Qed.

(** C3. A committed [UseBytes] on the client [c] with cap [cap] deletes the
    entry of [c] when [cap - dealSize] is below [MinVerifiedDealSize]
    (zero included) and otherwise sets it to [cap - dealSize]; and no
    committed state holds a client cap [v] with
    [0 < v < MinVerifiedDealSize]. *)
Theorem C3_UseBytes_floor :
  (forall rt params st st',
      UseBytes rt params st = Ok st' ->
      exists c cap,
        ResolveToIDAddr rt (ub_Address params) = Some c /\
        VerifiedClients st !! c = Some cap /\
        let newCap := cap - ub_DealSize params in
        (newCap < MinVerifiedDealSize ->
         VerifiedClients st' = delete c (VerifiedClients st) /\
         VerifiedClients st' !! c = None) /\
        (MinVerifiedDealSize <= newCap ->
         VerifiedClients st' = <[c := newCap]> (VerifiedClients st) /\
         VerifiedClients st' !! c = Some newCap)) /\
  (forall st, reachable st ->
      forall k v, VerifiedClients st !! k = Some v ->
        ~ (0 < v < MinVerifiedDealSize)).
Proof.
  split.
  - intros rt params st st' H.
    apply UseBytes_Ok in H as (c & cap & _ & Hres & _ & Hc & _ & _ & ->).
    exists c, cap. simpl. split; [exact Hres | split; [exact Hc |]].
    split; intros Hcmp.
    + apply Z.ltb_lt in Hcmp. rewrite Hcmp.
      split; [reflexivity | apply lookup_delete_eq].
    + apply Z.ltb_ge in Hcmp. rewrite Hcmp.
      split; [reflexivity | apply lookup_insert_eq].
  - intros st Hreach k v Hv [Hpos Hlow].
    assert (0 <= MinVerifiedDealSize) as Hmin by lia.
    pose proof (reachable_client_floor st Hmin Hreach k v Hv). lia.
Qed.

(** ** Caps are never negative *)

Lemma invoke_keeps_verifier_caps rt m st st' :
  0 <= MinVerifiedDealSize ->
  invoke rt m st = Ok st' ->
  (forall k v, Verifiers st !! k = Some v -> 0 <= v) ->
  forall k v, Verifiers st' !! k = Some v -> 0 <= v.
Proof.
  intros Hmin Hcall Hinv k v. destruct m as [p | va | p | p | p]; simpl in Hcall.
  - apply AddVerifier_Ok in Hcall as (a & Hge & _ & _ & _ & _ & ->). simpl.
    destruct (decide (a = k)) as [-> | Hne].
    + rewrite lookup_insert_eq. intros [= <-]. lia.
    + rewrite lookup_insert_ne by exact Hne. apply Hinv.
  - apply RemoveVerifier_Ok in Hcall as (a & _ & _ & _ & ->). simpl.
    destruct (decide (a = k)) as [-> | Hne].
    + rewrite lookup_delete_eq. discriminate.
    + rewrite lookup_delete_ne by exact Hne. apply Hinv.
  - apply AddVerifiedClient_Ok in Hcall
      as (c & cap & _ & _ & _ & _ & _ & Hle & _ & ->). simpl.
    destruct (decide (Caller rt = k)) as [-> | Hne].
    + rewrite lookup_insert_eq. intros [= <-]. lia.
    + rewrite lookup_insert_ne by exact Hne. apply Hinv.
  - apply UseBytes_Ok in Hcall as (c & cap & _ & _ & _ & _ & _ & _ & ->).
    apply Hinv.
  - apply RestoreBytes_Ok in Hcall as (c & _ & _ & _ & _ & _ & ->). apply Hinv.
Qed.

Lemma UseBytes_Panic rt params st :
  UseBytes rt params st = Panic ->
  exists c cap, VerifiedClients st !! c = Some cap /\ cap < 0.
Proof.
  unfold UseBytes, ValidateImmediateCallerIs. intros H.
  repeat match type of H with
  | context [abort_if ?c ?code] => destruct c; simpl in H; [discriminate H |]
  | context [RequireNoErr ?o ?err ?code] =>
      let E := fresh "E" in destruct o eqn:E; simpl in H; [| discriminate H]
  | context [found_or_abort ?o ?code] =>
      let E := fresh "E" in destruct o eqn:E; simpl in H; [| discriminate H]
  end.
  match type of H with
  | context [Assert ?c] => destruct c eqn:Hassert; simpl in H
  end.
  - destruct (ub_DealSize params >? _); discriminate H.
  - do 2 eexists. split; [eassumption |]. rewrite Z.geb_leb in Hassert.
    apply Z.leb_gt in Hassert. exact Hassert.
Qed.

(** C5. When the minimum deal size is not negative, every cap stored in
    a committed state, of a verifier or of a client, is at least zero, and
    the assertion of [UseBytes] on the cap it found does not fail there. *)
Theorem C5_caps_nonnegative st :
  0 <= MinVerifiedDealSize ->
  reachable st ->
  (forall k v, Verifiers st !! k = Some v -> 0 <= v) /\
  (forall k v, VerifiedClients st !! k = Some v -> 0 <= v) /\
  (forall rt params, UseBytes rt params st <> Panic).
Proof.
  intros Hmin Hreach.
  assert (forall k v, VerifiedClients st !! k = Some v -> 0 <= v) as Hclients.
  { intros k v Hv. pose proof (reachable_client_floor st Hmin Hreach k v Hv). lia. }
  split; [| split; [exact Hclients |]].
  - induction Hreach as [rt rootKey st Hc | rt m st st' Hreach IH Hcall].
    + apply Constructor_maps_empty in Hc as [Hc _]. intros k v. rewrite Hc.
      rewrite lookup_empty. discriminate.
    + apply (invoke_keeps_verifier_caps _ _ _ _ Hmin Hcall). apply IH.
      intros k v Hv.
      pose proof (reachable_client_floor st Hmin Hreach k v Hv). lia.
  - intros rt params Hpanic.
    apply UseBytes_Panic in Hpanic as (c & cap & Hc & Hneg).
    apply Hclients in Hc. lia.
Qed.

(** ** The root key has no role *)

Lemma invoke_keeps_root_out rt m st st' :
  invoke rt m st = Ok st' ->
  Verifiers st !! RootKey st = None /\ VerifiedClients st !! RootKey st = None ->
  RootKey st' = RootKey st /\
  Verifiers st' !! RootKey st' = None /\ VerifiedClients st' !! RootKey st' = None.
Proof.
  intros Hcall [Hv Hc]. destruct m as [p | va | p | p | p]; simpl in Hcall.
  - apply AddVerifier_Ok in Hcall as (a & _ & _ & _ & Hne & _ & ->). simpl.
    rewrite lookup_insert_ne by exact Hne. auto.
  - apply RemoveVerifier_Ok in Hcall as (a & _ & _ & _ & ->). simpl.
    split; [reflexivity | split; [| exact Hc]].
    rewrite lookup_delete_None. right. exact Hv.
  - apply AddVerifiedClient_Ok in Hcall
      as (c & cap & _ & _ & Hne & Hcaller & _ & _ & _ & ->). simpl.
    split; [reflexivity | split].
    + rewrite lookup_insert_ne; [exact Hv |]. intros Heq. rewrite Heq in Hcaller.
      rewrite Hv in Hcaller. discriminate Hcaller.
    + rewrite lookup_insert_ne; [exact Hc |]. intros Heq. apply Hne. symmetry.
      exact Heq.
  - apply UseBytes_Ok in Hcall as (c & cap & _ & _ & _ & Hfound & _ & _ & ->).
    simpl. split; [reflexivity | split; [exact Hv |]].
    destruct (cap - ub_DealSize p <? MinVerifiedDealSize).
    + rewrite lookup_delete_None. right. exact Hc.
    + rewrite lookup_insert_ne; [exact Hc |]. intros Heq. rewrite Heq in Hfound.
      rewrite Hc in Hfound. discriminate Hfound.
  - apply RestoreBytes_Ok in Hcall as (c & _ & _ & _ & Hne & _ & ->). simpl.
    split; [reflexivity | split; [exact Hv |]].
    rewrite lookup_insert_ne; [exact Hc |]. intros Heq. apply Hne. symmetry.
    exact Heq.
Qed.

(** C6. In every committed state the root key is a key of neither map.
    A call of [AddVerifier] whose address resolves to the root key never
    commits, and aborts with [ErrIllegalArgument] when the caller is the
    root key; [AddVerifiedClient] for the root key aborts with
    [ErrIllegalArgument]; [RestoreBytes] for the root key never commits,
    and aborts with [ErrIllegalArgument] when the caller is the storage
    market actor. *)
Theorem C6_root_isolation st :
  reachable st ->
  (Verifiers st !! RootKey st = None /\ VerifiedClients st !! RootKey st = None) /\
  (forall rt params,
      ResolveToIDAddr rt (av_Address params) = Some (RootKey st) ->
      (exists code, AddVerifier rt params st = Abort code) /\
      (Caller rt = RootKey st ->
       AddVerifier rt params st = Abort ErrIllegalArgument)) /\
  (forall rt params,
      ResolveToIDAddr rt (avc_Address params) = Some (RootKey st) ->
      AddVerifiedClient rt params st = Abort ErrIllegalArgument) /\
  (forall rt params,
      ResolveToIDAddr rt (rb_Address params) = Some (RootKey st) ->
      (exists code, RestoreBytes rt params st = Abort code) /\
      (Caller rt = StorageMarketActorAddr ->
       RestoreBytes rt params st = Abort ErrIllegalArgument)).
Proof.
  intros Hreach. split; [| split; [| split]].
  - induction Hreach as [rt rootKey st Hc | rt m st st' _ IH Hcall].
    + apply Constructor_maps_empty in Hc as [Hv Hc]. rewrite Hv, Hc.
      split; apply lookup_empty.
    + apply (invoke_keeps_root_out _ _ _ _ Hcall IH).
  - intros rt params Hres. unfold AddVerifier, ValidateImmediateCallerIs.
    rewrite Hres. simpl.
    destruct (av_Allowance params <? MinVerifiedDealSize); simpl; [eauto |].
    rewrite (bool_decide_eq_true_2 (RootKey st = RootKey st) eq_refl).
    destruct (bool_decide (Caller rt = RootKey st)) eqn:Hcaller; simpl.
    + eauto.
    + split; [eauto |]. intros Heq. apply bool_decide_eq_false in Hcaller.
      contradiction.
  - intros rt params Hres.
    unfold AddVerifiedClient, ValidateImmediateCallerAcceptAny.
    rewrite Hres. simpl.
    destruct (avc_Allowance params <? MinVerifiedDealSize); simpl; [reflexivity |].
    rewrite (bool_decide_eq_true_2 (RootKey st = RootKey st) eq_refl).
    reflexivity.
  - intros rt params Hres. unfold RestoreBytes, ValidateImmediateCallerIs.
    rewrite Hres.
    destruct (bool_decide (Caller rt = StorageMarketActorAddr)) eqn:Hcaller; simpl.
    + destruct (rb_DealSize params <? MinVerifiedDealSize); simpl; [eauto |].
      rewrite (bool_decide_eq_true_2 (RootKey st = RootKey st) eq_refl). simpl.
      eauto.
    + split; [eauto |]. intros Heq. apply bool_decide_eq_false in Hcaller.
      contradiction.
Qed.

(** ** [RestoreBytes] *)

(** C7. A committed [RestoreBytes] for the resolved client [c] sets the cap
    of [c] to its previous cap, or zero when [c] had none, plus the deal
    size; the other client caps and the whole [Verifiers] map stay as they
    were. *)
Theorem C7_RestoreBytes_effect rt params st st' :
  RestoreBytes rt params st = Ok st' ->
  exists c,
    ResolveToIDAddr rt (rb_Address params) = Some c /\
    VerifiedClients st' !! c
      = Some (default 0 (VerifiedClients st !! c) + rb_DealSize params) /\
    (VerifiedClients st !! c = None ->
     VerifiedClients st' !! c = Some (rb_DealSize params)) /\
    (forall k, k <> c -> VerifiedClients st' !! k = VerifiedClients st !! k) /\
    Verifiers st' = Verifiers st.
Proof.
  intros H. apply RestoreBytes_Ok in H as (c & _ & _ & Hres & _ & _ & ->).
  exists c. simpl. split; [exact Hres |]. rewrite lookup_insert_eq.
  split; [reflexivity |]. split; [| split; [| reflexivity]].
  - intros ->. reflexivity.
  - intros k Hne. apply lookup_insert_ne. congruence.
Qed.

(** ** [AddVerifier] *)

Lemma AddVerifier_commits rt params st verifier :
  MinVerifiedDealSize <= av_Allowance params ->
  ResolveToIDAddr rt (av_Address params) = Some verifier ->
  Caller rt = RootKey st ->
  verifier <> RootKey st ->
  VerifiedClients st !! verifier = None ->
  AddVerifier rt params st
  = Ok {| RootKey := RootKey st;
          Verifiers := <[verifier := av_Allowance params]> (Verifiers st);
          VerifiedClients := VerifiedClients st |}.
Proof.
  intros Hge Hres Hcaller Hne Hclient. unfold AddVerifier, ValidateImmediateCallerIs.
  apply Z.ltb_ge in Hge. rewrite Hge, Hres. simpl.
  rewrite (bool_decide_eq_true_2 _ Hcaller). simpl.
  rewrite (bool_decide_eq_false_2 _ Hne). simpl.
  rewrite Hclient.
  rewrite bool_decide_eq_false_2; [reflexivity |].
  intros [x Hx]. discriminate Hx.
Qed.

(** C8. A committed [AddVerifier] for an address whose resolved id [v]
    already has a cap in [Verifiers] leaves [v] with exactly the allowance
    of the call: the earlier cap is replaced. After a committed
    [AddVerifier], the same caller can add the same address again with any
    allowable allowance: the call commits, and the cap is the second
    allowance, not the sum. *)
Theorem C8_AddVerifier_overwrites rt params st st' :
  AddVerifier rt params st = Ok st' ->
  exists v,
    ResolveToIDAddr rt (av_Address params) = Some v /\
    (forall prior, Verifiers st !! v = Some prior ->
       Verifiers st' !! v = Some (av_Allowance params)) /\
    Verifiers st' !! v = Some (av_Allowance params) /\
    (forall allowance, MinVerifiedDealSize <= allowance ->
       exists st'',
         AddVerifier rt
           {| av_Address := av_Address params; av_Allowance := allowance |} st'
         = Ok st'' /\
         Verifiers st'' !! v = Some allowance).
Proof.
  intros H.
  apply AddVerifier_Ok in H as (v & _ & Hres & Hcaller & Hne & Hclient & ->).
  exists v. simpl. rewrite lookup_insert_eq.
  split; [exact Hres |]. split; [reflexivity |]. split; [reflexivity |].
  intros allowance Hge. eexists. split.
  - apply AddVerifier_commits with (verifier := v); assumption.
  - simpl. apply lookup_insert_eq.
Qed.

(** C10, as the code has it. In [AddVerifier] the allowance check and the
    address resolution come before the caller check. For a caller other
    than the root key: an allowance below the minimum aborts with
    [ErrIllegalArgument]; an allowable allowance with an address that does
    not resolve aborts with the exit code that the error of the resolution
    wraps, and with [ErrIllegalState] when it wraps none; the caller check
    is reached, and fails with [SysErrForbidden], when the allowance is
    allowable and the address resolves. *)
Theorem C10_AddVerifier_check_order rt params st :
  Caller rt <> RootKey st ->
  (av_Allowance params < MinVerifiedDealSize ->
   AddVerifier rt params st = Abort ErrIllegalArgument) /\
  (MinVerifiedDealSize <= av_Allowance params ->
   ResolveToIDAddr rt (av_Address params) = None ->
   AddVerifier rt params st
   = Abort (exitcode.Unwrap (ResolveToIDAddr_err rt (av_Address params))
                            ErrIllegalState) /\
   (exitcode.wrapped (ResolveToIDAddr_err rt (av_Address params)) = None ->
    AddVerifier rt params st = Abort ErrIllegalState) /\
   (forall code,
       exitcode.wrapped (ResolveToIDAddr_err rt (av_Address params)) = Some code ->
       AddVerifier rt params st = Abort code)) /\
  (MinVerifiedDealSize <= av_Allowance params ->
   is_Some (ResolveToIDAddr rt (av_Address params)) ->
   AddVerifier rt params st = Abort SysErrForbidden).
Proof.
  intros Hcaller. unfold AddVerifier, ValidateImmediateCallerIs.
  rewrite (bool_decide_eq_false_2 _ Hcaller).
  destruct (av_Allowance params <? MinVerifiedDealSize) eqn:Hlow; simpl.
  - apply Z.ltb_lt in Hlow. split; [reflexivity |]. split; intros; lia.
  - apply Z.ltb_ge in Hlow. split; [lia |]. split.
    + intros _ ->. simpl. unfold exitcode.Unwrap.
      split; [reflexivity |]. split.
      * intros ->. reflexivity.
      * intros code ->. reflexivity.
    + intros _ [v ->]. reflexivity.
Qed.

(** ** [UseBytes] *)

(** C4, as the code has it. In [UseBytes] the address is resolved before
    the deal size is compared with the minimum. For a call by the storage
    market actor: a deal size below the minimum with an address that does
    not resolve aborts with the error of the resolution, that is with the
    exit code that error wraps, and with [ErrIllegalState] when it wraps
    none; a deal size below the minimum aborts with [ErrIllegalArgument],
    from the size check, when the address resolves. *)
Theorem C4_UseBytes_check_order rt params st :
  Caller rt = StorageMarketActorAddr ->
  ub_DealSize params < MinVerifiedDealSize ->
  (ResolveToIDAddr rt (ub_Address params) = None ->
   UseBytes rt params st
   = Abort (exitcode.Unwrap (ResolveToIDAddr_err rt (ub_Address params))
                            ErrIllegalState) /\
   (exitcode.wrapped (ResolveToIDAddr_err rt (ub_Address params)) = None ->
    UseBytes rt params st = Abort ErrIllegalState)) /\
  (is_Some (ResolveToIDAddr rt (ub_Address params)) ->
   UseBytes rt params st = Abort ErrIllegalArgument).
Proof.
  intros Hcaller Hlow. unfold UseBytes, ValidateImmediateCallerIs.
  rewrite (bool_decide_eq_true_2 _ Hcaller). simpl. split.
  - intros ->. simpl. unfold exitcode.Unwrap. split; [reflexivity |].
    intros ->. reflexivity.
  - intros [c ->]. apply Z.ltb_lt in Hlow. simpl. rewrite Hlow. reflexivity.
Qed.

End VerifregProperties.

(** * Properties of the metric-recording block store *)

Section MetricsProperties.

Import ipld.
Context {S : Type} `{IpldBlockstore S}.

Local Open Scope Z_scope.

(** C9. Every [Get] of the metrics wrapper counts one read, and adds the
    size of the block to the read bytes only when the wrapped [Get] returned
    no error; every [Put] counts one write and adds the size of the block to
    the write bytes, whatever the wrapped [Put] returns. The four accessors
    give the four counters. *)
Theorem C9_metrics_accounting (ms : MetricsBlockStore S) :
  (forall c,
      let under := Get (ms_bs ms) c in
      let after := MetricsBlockStore_Get ms c in
      ms_bs (fst after) = fst under /\
      ReadCount (fst after) = uint64 (ReadCount ms + 1) /\
      WriteCount (fst after) = WriteCount ms /\
      WriteSize (fst after) = WriteSize ms /\
      (forall blk err, snd under = Returns (blk, Some err) ->
         ReadSize (fst after) = ReadSize ms /\
         snd after = Returns (blk, Some err)) /\
      (forall blk, snd under = Returns (Some blk, None) ->
         ReadSize (fst after) = uint64 (ReadSize ms + size blk) /\
         snd after = Returns (Some blk, None)) /\
      (snd under = Returns (None, None) \/ snd under = Panics ->
         ReadSize (fst after) = ReadSize ms /\ snd after = Panics)) /\
  (forall b,
      let under := Put (ms_bs ms) b in
      let after := MetricsBlockStore_Put ms b in
      ms_bs (fst after) = fst under /\
      snd after = snd under /\
      WriteCount (fst after) = uint64 (WriteCount ms + 1) /\
      WriteSize (fst after) = uint64 (WriteSize ms + size b) /\
      ReadCount (fst after) = ReadCount ms /\
      ReadSize (fst after) = ReadSize ms) /\
  ReadCount ms = Reads ms /\ WriteCount ms = Writes ms /\
  ReadSize ms = ReadBytes ms /\ WriteSize ms = WriteBytes ms.
Proof.
  split; [| split; [| repeat apply conj; reflexivity]].
  - intros c. unfold MetricsBlockStore_Get, ReadCount, WriteCount, ReadSize, WriteSize.
    simpl. destruct (Get (ms_bs ms) c) as [bs r]. simpl.
    destruct r as [[[blk |] [err |]] |]; simpl;
      repeat apply conj; try reflexivity;
      intros; destruct_or?; simplify_eq; split; reflexivity.
  - intros b. unfold MetricsBlockStore_Put, ReadCount, WriteCount, ReadSize, WriteSize.
    simpl. destruct (Put (ms_bs ms) b) as [bs r]. simpl.
    repeat apply conj; reflexivity.
Qed.

End MetricsProperties.

(** * The properties on the scenario *)

Section Scenario.

Import verifreg.
Import ipld.

Local Open Scope Z_scope.
Local Existing Instance scenario.constants.

Lemma C1_roles_disjoint_witness :
  dom (Verifiers scenario.with_client) ∩ dom (VerifiedClients scenario.with_client)
  = ∅.
Proof.
  apply (C1_roles_disjoint scenario.with_client). exact scenario_reachable.
Defined.

Lemma C2_AddVerifiedClient_conservation_witness :
  exists c oldCap newCap clientCap,
    scenario.resolve scenario.C = Some c /\
    Verifiers scenario.with_verifier !! scenario.V = Some oldCap /\
    Verifiers scenario.with_client !! scenario.V = Some newCap /\
    VerifiedClients scenario.with_client !! c = Some clientCap /\
    clientCap = 4000 /\
    newCap = oldCap - 4000 /\
    newCap + clientCap = oldCap /\
    VerifiedClients scenario.with_verifier !! c = None.
Proof.
  apply (C2_AddVerifiedClient_conservation (scenario.runtime scenario.V)
           {| avc_Address := scenario.C; avc_Allowance := 4000 |}
           scenario.with_verifier scenario.with_client).
  vm_compute. reflexivity.
Defined.

Lemma C3_UseBytes_floor_witness :
  (exists c cap,
      scenario.resolve scenario.C = Some c /\
      VerifiedClients scenario.with_client !! c = Some cap /\
      let newCap := cap - 3500 in
      (newCap < 1024 ->
       VerifiedClients scenario.drained = delete c (VerifiedClients scenario.with_client) /\
       VerifiedClients scenario.drained !! c = None) /\
      (1024 <= newCap ->
       VerifiedClients scenario.drained
       = <[c := newCap]> (VerifiedClients scenario.with_client) /\
       VerifiedClients scenario.drained !! c = Some newCap)) /\
  (forall k v, VerifiedClients scenario.restored !! k = Some v ->
     ~ (0 < v < 1024)).
Proof.
  destruct C3_UseBytes_floor as [Hcall Hfloor]. split.
  - apply (Hcall (scenario.runtime "f05")
             {| ub_Address := scenario.C; ub_DealSize := 3500 |}
             scenario.with_client scenario.drained).
    vm_compute. reflexivity.
  - apply (Hfloor scenario.restored). exact scenario_restored_reachable.
Defined.

Lemma C5_caps_nonnegative_witness :
  (forall k v, Verifiers scenario.restored !! k = Some v -> 0 <= v) /\
  (forall k v, VerifiedClients scenario.restored !! k = Some v -> 0 <= v) /\
  (forall rt params, UseBytes rt params scenario.restored <> Panic).
Proof.
  apply (C5_caps_nonnegative scenario.restored).
  - simpl. lia.
  - exact scenario_restored_reachable.
Defined.

Lemma C6_root_isolation_witness :
  Verifiers scenario.with_client !! scenario.R = None /\
  VerifiedClients scenario.with_client !! scenario.R = None.
Proof.
  apply (C6_root_isolation scenario.with_client). exact scenario_reachable.
Defined.

Lemma C7_RestoreBytes_effect_witness :
  exists c,
    scenario.resolve scenario.C = Some c /\
    VerifiedClients scenario.restored !! c
      = Some (default 0 (VerifiedClients scenario.drained !! c) + 2000) /\
    (VerifiedClients scenario.drained !! c = None ->
     VerifiedClients scenario.restored !! c = Some 2000) /\
    (forall k, k <> c ->
       VerifiedClients scenario.restored !! k = VerifiedClients scenario.drained !! k) /\
    Verifiers scenario.restored = Verifiers scenario.drained.
Proof.
  apply (C7_RestoreBytes_effect (scenario.runtime "f05")
           {| rb_Address := scenario.C; rb_DealSize := 2000 |}
           scenario.drained scenario.restored).
  vm_compute. reflexivity.
Defined.

Lemma C8_AddVerifier_overwrites_witness :
  exists v,
    scenario.resolve scenario.V = Some v /\
    (forall prior, Verifiers scenario.with_verifier !! v = Some prior ->
       Verifiers scenario.with_verifier_again !! v = Some 2000) /\
    Verifiers scenario.with_verifier_again !! v = Some 2000 /\
    (forall allowance, 1024 <= allowance ->
       exists st'',
         AddVerifier (scenario.runtime scenario.R)
           {| av_Address := scenario.V; av_Allowance := allowance |}
           scenario.with_verifier_again
         = Ok st'' /\
         Verifiers st'' !! v = Some allowance).
Proof.
  exact (C8_AddVerifier_overwrites (scenario.runtime scenario.R)
           {| av_Address := scenario.V; av_Allowance := 2000 |}
           scenario.with_verifier scenario.with_verifier_again
           scenario_with_verifier_again).
Defined.

Lemma C10_AddVerifier_check_order_witness :
  AddVerifier (scenario.runtime scenario.X)
    {| av_Address := scenario.unknown; av_Allowance := 1023 |}
    scenario.with_verifier
  = Abort ErrIllegalArgument /\
  AddVerifier (scenario.runtime scenario.X)
    {| av_Address := scenario.unknown; av_Allowance := 1024 |}
    scenario.with_verifier
  = Abort ErrIllegalState /\
  AddVerifier (scenario_more.runtime_send_fails scenario.X)
    {| av_Address := scenario.unknown; av_Allowance := 1024 |}
    scenario.with_verifier
  = Abort ErrNotFound /\
  AddVerifier (scenario.runtime scenario.X)
    {| av_Address := scenario.V; av_Allowance := 1024 |}
    scenario.with_verifier
  = Abort SysErrForbidden.
Proof.
  assert (forall caller, caller = scenario.X ->
            caller <> RootKey scenario.with_verifier) as Hother
    by (intros caller ->; simpl; discriminate).
  split; [| split; [| split]].
  - destruct (C10_AddVerifier_check_order (scenario.runtime scenario.X)
                {| av_Address := scenario.unknown; av_Allowance := 1023 |}
                scenario.with_verifier (Hother _ eq_refl)) as (Hlow & _ & _).
    apply Hlow. simpl. lia.
  - destruct (C10_AddVerifier_check_order (scenario.runtime scenario.X)
                {| av_Address := scenario.unknown; av_Allowance := 1024 |}
                scenario.with_verifier (Hother _ eq_refl)) as (_ & Hunresolved & _).
    destruct Hunresolved as (_ & Hplain & _); [simpl; lia | reflexivity |].
    apply Hplain. reflexivity.
  - destruct (C10_AddVerifier_check_order
                (scenario_more.runtime_send_fails scenario.X)
                {| av_Address := scenario.unknown; av_Allowance := 1024 |}
                scenario.with_verifier (Hother _ eq_refl)) as (_ & Hunresolved & _).
    destruct Hunresolved as (_ & _ & Hwrapped); [simpl; lia | reflexivity |].
    apply Hwrapped. reflexivity.
  - destruct (C10_AddVerifier_check_order (scenario.runtime scenario.X)
                {| av_Address := scenario.V; av_Allowance := 1024 |}
                scenario.with_verifier (Hother _ eq_refl)) as (_ & _ & Hforbidden).
    apply Hforbidden; [simpl; lia | simpl; eauto].
Defined.

(** C10 as the specification has it fails: a caller other than the root
    key calls [AddVerifier] with an allowable allowance for an address
    whose resolution fails by a send that returns [ErrNotFound], and the
    abort is not [ErrIllegalState]. *)
Lemma C10_unresolved_code_counterexample :
  let rt := scenario_more.runtime_send_fails scenario.X in
  let params := {| av_Address := scenario.unknown; av_Allowance := 1024 |} in
  ~ (Caller rt <> RootKey scenario.with_verifier ->
     ResolveToIDAddr rt (av_Address params) = None ->
     AddVerifier rt params scenario.with_verifier = Abort ErrIllegalState).
Proof.
  intros rt params Hclaim.
  assert (AddVerifier rt params scenario.with_verifier = Abort ErrIllegalState) as H.
  { apply Hclaim; [simpl; discriminate | reflexivity]. }
  vm_compute in H. discriminate H.
Qed.

Example scenario_AddVerifier_send_fails :
  AddVerifier (scenario_more.runtime_send_fails scenario.X)
    {| av_Address := scenario.unknown; av_Allowance := 1024 |}
    scenario.with_verifier
  = Abort ErrNotFound.
Proof. reflexivity. Qed.

(** C4 as the specification has it fails: the storage market actor calls
    [UseBytes] with a deal size below the minimum for an address that does
    not resolve, and the abort is not [ErrIllegalArgument]. *)
Lemma C4_size_check_first_counterexample :
  let rt := scenario.runtime "f05" in
  let params := {| ub_Address := scenario.unknown; ub_DealSize := 1023 |} in
  ~ (ub_DealSize params < MinVerifiedDealSize ->
     ResolveToIDAddr rt (ub_Address params) = None ->
     UseBytes rt params scenario.with_client = Abort ErrIllegalArgument).
Proof.
  intros rt params Hclaim.
  assert (UseBytes rt params scenario.with_client = Abort ErrIllegalArgument) as H.
  { apply Hclaim; [simpl; lia | reflexivity]. }
  vm_compute in H. discriminate H.
Qed.

Example scenario_UseBytes_unresolved :
  UseBytes (scenario.runtime "f05")
    {| ub_Address := scenario.unknown; ub_DealSize := 1023 |} scenario.with_client
  = Abort ErrIllegalState.
Proof. reflexivity. Qed.

Lemma C4_UseBytes_check_order_witness :
  UseBytes (scenario.runtime "f05")
    {| ub_Address := scenario.unknown; ub_DealSize := 1023 |} scenario.with_client
  = Abort ErrIllegalState /\
  UseBytes (scenario_more.runtime_send_fails "f05")
    {| ub_Address := scenario.unknown; ub_DealSize := 1023 |} scenario.with_client
  = Abort ErrNotFound /\
  UseBytes (scenario.runtime "f05")
    {| ub_Address := scenario.C; ub_DealSize := 1023 |} scenario.with_client
  = Abort ErrIllegalArgument.
Proof.
  assert (1023 < MinVerifiedDealSize) as Hlow by (simpl; lia).
  assert ("f05"%string = StorageMarketActorAddr) as Hmarket by reflexivity.
  split; [| split].
  - destruct (C4_UseBytes_check_order (scenario.runtime "f05")
                {| ub_Address := scenario.unknown; ub_DealSize := 1023 |}
                scenario.with_client Hmarket Hlow) as (Hunresolved & _).
    destruct Hunresolved as (_ & Hplain); [reflexivity |].
    apply Hplain. reflexivity.
  - destruct (C4_UseBytes_check_order (scenario_more.runtime_send_fails "f05")
                {| ub_Address := scenario.unknown; ub_DealSize := 1023 |}
                scenario.with_client Hmarket Hlow) as (Hunresolved & _).
    destruct Hunresolved as (Hcode & _); [reflexivity |].
    exact Hcode.
  - destruct (C4_UseBytes_check_order (scenario.runtime "f05")
                {| ub_Address := scenario.C; ub_DealSize := 1023 |}
                scenario.with_client Hmarket Hlow) as (_ & Hresolved).
    apply Hresolved. simpl. eauto.
Defined.

Lemma C9_metrics_accounting_witness :
  let ms := NewMetricsBlockStore failing in
  snd (MetricsBlockStore_Put ms sample) = Returns (Some "read-only store"%string) /\
  WriteSize (fst (MetricsBlockStore_Put ms sample)) = uint64 (WriteSize ms + size sample) /\
  ReadSize (fst (MetricsBlockStore_Get ms "sample")) = ReadSize ms.
Proof.
  intros ms. destruct (C9_metrics_accounting ms) as (Hget & Hput & _).
  destruct (Hput sample) as (_ & Hresult & _ & Hsize & _).
  destruct (Hget "sample"%string) as (_ & _ & _ & _ & Hfailed & _).
  split; [exact Hresult | split; [exact Hsize |]].
  apply (Hfailed None "not found"%string). reflexivity.
Defined.

(** A refused [Put] is counted with its bytes. *)
Example metrics_refused_put :
  let ms := fst (MetricsBlockStore_Put (NewMetricsBlockStore failing) sample) in
  (WriteCount ms, WriteSize ms, ReadCount ms, ReadSize ms) = (1, 3, 0, 0).
Proof. reflexivity. Qed.

(** A failed [Get] is counted, without bytes. *)
Example metrics_failed_get :
  let ms := fst (MetricsBlockStore_Get (NewMetricsBlockStore failing) "sample") in
  (WriteCount ms, WriteSize ms, ReadCount ms, ReadSize ms) = (0, 0, 1, 0).
Proof. reflexivity. Qed.

(** A block put in the in-memory store and read back through the wrapper. *)
Example metrics_put_then_get :
  let ms := fst (MetricsBlockStore_Put (NewMetricsBlockStore NewBlockStoreInMemory) sample) in
  let r := MetricsBlockStore_Get ms "sample" in
  snd r = Returns (Some sample, None) /\
  (WriteCount (fst r), WriteSize (fst r), ReadCount (fst r), ReadSize (fst r))
  = (1, 3, 1, 3).
Proof. vm_compute. split; reflexivity. Qed.

(** The byte counters wrap around at 2^64. *)
Example metrics_wrap_around :
  let ms := {| ms_bs := failing; Writes := 0; WriteBytes := 2 ^ 64 - 1;
               Reads := 0; ReadBytes := 0 |} in
  WriteSize (fst (MetricsBlockStore_Put ms sample)) = 2.
Proof. reflexivity. Qed.

End Scenario.

(** * Further properties of the verified registry actor *)

Section VerifregCalls.

Import verifreg.
Context `{C : Constants}.

Local Open Scope Z_scope.
Local Set Warnings "-clear-no-such-hyp".

(** ** What suffices for a call to commit *)

Lemma RemoveVerifier_commits rt verifierAddr st verifier cap :
  ResolveToIDAddr rt verifierAddr = Some verifier ->
  Caller rt = RootKey st ->
  Verifiers st !! verifier = Some cap ->
  RemoveVerifier rt verifierAddr st
  = Ok {| RootKey := RootKey st;
          Verifiers := delete verifier (Verifiers st);
          VerifiedClients := VerifiedClients st |}.
Proof.
  intros Hres Hcaller Hcap. unfold RemoveVerifier, ValidateImmediateCallerIs.
  rewrite Hres. simpl. rewrite (bool_decide_eq_true_2 _ Hcaller). simpl.
  unfold map_Delete. rewrite Hcap. reflexivity.
Qed.

Lemma UseBytes_commits rt params st client vcCap :
  Caller rt = StorageMarketActorAddr ->
  ResolveToIDAddr rt (ub_Address params) = Some client ->
  MinVerifiedDealSize <= ub_DealSize params ->
  VerifiedClients st !! client = Some vcCap ->
  0 <= vcCap ->
  ub_DealSize params <= vcCap ->
  UseBytes rt params st
  = Ok {| RootKey := RootKey st;
          Verifiers := Verifiers st;
          VerifiedClients :=
            if vcCap - ub_DealSize params <? MinVerifiedDealSize
            then delete client (VerifiedClients st)
            else <[client := vcCap - ub_DealSize params]> (VerifiedClients st) |}.
Proof.
  intros Hcaller Hres Hge Hcap Hpos Hle. unfold UseBytes, ValidateImmediateCallerIs.
  rewrite (bool_decide_eq_true_2 _ Hcaller), Hres. simpl.
  apply Z.ltb_ge in Hge. rewrite Hge. simpl. rewrite Hcap. simpl.
  assert ((vcCap >=? 0) = true) as -> by (rewrite Z.geb_leb; apply Z.leb_le; exact Hpos).
  simpl.
  assert ((ub_DealSize params >? vcCap) = false) as ->
    by (rewrite Z.gtb_ltb; apply Z.ltb_ge; exact Hle).
  reflexivity.
Qed.

Lemma RestoreBytes_commits rt params st client :
  Caller rt = StorageMarketActorAddr ->
  MinVerifiedDealSize <= rb_DealSize params ->
  ResolveToIDAddr rt (rb_Address params) = Some client ->
  RootKey st <> client ->
  Verifiers st !! client = None ->
  RestoreBytes rt params st
  = Ok {| RootKey := RootKey st;
          Verifiers := Verifiers st;
          VerifiedClients :=
            <[client := default 0 (VerifiedClients st !! client)
                        + rb_DealSize params]> (VerifiedClients st) |}.
Proof.
  intros Hcaller Hge Hres Hroot Hver. unfold RestoreBytes, ValidateImmediateCallerIs.
  rewrite (bool_decide_eq_true_2 _ Hcaller). simpl.
  apply Z.ltb_ge in Hge. rewrite Hge. simpl. rewrite Hres. simpl.
  rewrite (bool_decide_eq_false_2 _ Hroot). simpl. rewrite Hver.
  rewrite bool_decide_eq_false_2; [reflexivity |].
  intros [x Hx]. discriminate Hx.
Qed.

(** ** Invariants of a committed state, gathered *)

Lemma reachable_roles st :
  reachable st ->
  (forall a, is_Some (Verifiers st !! a) -> VerifiedClients st !! a = None) /\
  Verifiers st !! RootKey st = None /\
  VerifiedClients st !! RootKey st = None.
Proof.
  intros Hreach. induction Hreach as [rt rootKey st Hc | rt m st st' _ IH Hcall].
  - apply Constructor_maps_empty in Hc as [Hv Hc]. rewrite Hv, Hc.
    split; [| split; apply lookup_empty].
    intros a. rewrite lookup_empty. intros [x Hx]. discriminate Hx.
  - destruct IH as (Hapart & Hrv & Hrc). split.
    + exact (invoke_keeps_roles_apart _ _ _ _ Hcall Hapart).
    + apply (invoke_keeps_root_out _ _ _ _ Hcall (conj Hrv Hrc)).
Qed.

(** ** What a committed call leaves alone *)

(** X1. A committed call never changes the root key. [AddVerifier] and
    [RemoveVerifier] leave the verified clients as they were, [UseBytes]
    and [RestoreBytes] leave the verifiers as they were, and
    [AddVerifiedClient] changes the verifiers only at the caller and keeps
    their key set. *)
Theorem X1_invoke_frame rt m st st' :
  invoke rt m st = Ok st' ->
  RootKey st' = RootKey st /\
  match m with
  | MAddVerifier _ | MRemoveVerifier _ => VerifiedClients st' = VerifiedClients st
  | MUseBytes _ | MRestoreBytes _ => Verifiers st' = Verifiers st
  | MAddVerifiedClient _ =>
      dom (Verifiers st') = dom (Verifiers st) /\
      forall k, k <> Caller rt -> Verifiers st' !! k = Verifiers st !! k
  end.
Proof.
  intros Hcall. destruct m as [p | va | p | p | p]; simpl in Hcall.
  - apply AddVerifier_Ok in Hcall as (a & _ & _ & _ & _ & _ & ->).
    split; reflexivity.
  - apply RemoveVerifier_Ok in Hcall as (a & _ & _ & _ & ->). split; reflexivity.
  - apply AddVerifiedClient_Ok in Hcall
      as (c & cap & _ & _ & _ & Hcaller & _ & _ & _ & ->). simpl.
    split; [reflexivity | split].
    + apply dom_insert_lookup_L. eauto.
    + intros k Hne. apply lookup_insert_ne. congruence.
  - apply UseBytes_Ok in Hcall as (c & cap & _ & _ & _ & _ & _ & _ & ->).
    split; reflexivity.
  - apply RestoreBytes_Ok in Hcall as (c & _ & _ & _ & _ & _ & ->).
    split; reflexivity.
Qed.

(** X2. A call commits only for an authorised caller: the root key for
    [AddVerifier] and [RemoveVerifier], a current verifier for
    [AddVerifiedClient], the storage market actor for [UseBytes] and
    [RestoreBytes]. *)
Theorem X2_committed_caller_authorised rt m st st' :
  invoke rt m st = Ok st' ->
  match m with
  | MAddVerifier _ | MRemoveVerifier _ => Caller rt = RootKey st
  | MAddVerifiedClient _ => is_Some (Verifiers st !! Caller rt)
  | MUseBytes _ | MRestoreBytes _ => Caller rt = StorageMarketActorAddr
  end.
Proof.
  intros Hcall. destruct m as [p | va | p | p | p]; simpl in Hcall.
  - apply AddVerifier_Ok in Hcall as (a & _ & _ & Hcaller & _). exact Hcaller.
  - apply RemoveVerifier_Ok in Hcall as (a & _ & Hcaller & _). exact Hcaller.
  - apply AddVerifiedClient_Ok in Hcall as (c & cap & _ & _ & _ & Hcaller & _).
    eauto.
  - apply UseBytes_Ok in Hcall as (c & cap & Hcaller & _). exact Hcaller.
  - apply RestoreBytes_Ok in Hcall as (c & Hcaller & _). exact Hcaller.
Qed.

(** X3. On the state a [Constructor] has just created, the only calls
    that commit are [AddVerifier] and [RestoreBytes]; the latter gives a
    client a cap that no verifier paid for. *)
Theorem X3_first_call rt0 rootKey st0 rt m st' :
  Constructor rt0 rootKey = Ok st0 ->
  invoke rt m st0 = Ok st' ->
  (exists params v,
      m = MAddVerifier params /\
      Verifiers st' = {[v := av_Allowance params]} /\ VerifiedClients st' = ∅) \/
  (exists params c,
      m = MRestoreBytes params /\
      Verifiers st' = ∅ /\ VerifiedClients st' = {[c := rb_DealSize params]}).
Proof.
  intros Hc Hcall. apply Constructor_maps_empty in Hc as [Hv Hcl].
  destruct m as [p | va | p | p | p]; simpl in Hcall.
  - apply AddVerifier_Ok in Hcall as (a & _ & _ & _ & _ & _ & ->). left.
    exists p, a. simpl. rewrite Hv, Hcl. repeat split.
  - apply RemoveVerifier_Ok in Hcall as (a & _ & _ & [x Hx] & _).
    rewrite Hv, lookup_empty in Hx. discriminate Hx.
  - apply AddVerifiedClient_Ok in Hcall as (c & cap & _ & _ & _ & Hx & _).
    rewrite Hv, lookup_empty in Hx. discriminate Hx.
  - apply UseBytes_Ok in Hcall as (c & cap & _ & _ & _ & Hx & _).
    rewrite Hcl, lookup_empty in Hx. discriminate Hx.
  - apply RestoreBytes_Ok in Hcall as (c & _ & _ & _ & _ & _ & ->). right.
    exists p, c. simpl. rewrite Hv, Hcl, lookup_empty. simpl.
    repeat split.
Qed.

(** ** Removing a verifier *)

(** X4. [RemoveVerifier] by the root key for an address that is not a
    verifier aborts with [ErrIllegalState]. When it commits, the verifier
    is gone, the other verifiers and all the verified clients are as they
    were, and the removed verifier can no longer add a client: its call
    aborts with [ErrNotFound] once the allowance and the address pass. *)
Theorem X4_RemoveVerifier_effect rt verifierAddr st :
  (forall v,
      ResolveToIDAddr rt verifierAddr = Some v ->
      Caller rt = RootKey st ->
      Verifiers st !! v = None ->
      RemoveVerifier rt verifierAddr st = Abort ErrIllegalState) /\
  (forall st',
      RemoveVerifier rt verifierAddr st = Ok st' ->
      exists v,
        ResolveToIDAddr rt verifierAddr = Some v /\
        is_Some (Verifiers st !! v) /\
        Verifiers st' !! v = None /\
        (forall k, k <> v -> Verifiers st' !! k = Verifiers st !! k) /\
        VerifiedClients st' = VerifiedClients st /\
        forall rt' params,
          Caller rt' = v ->
          (forall st'', AddVerifiedClient rt' params st' <> Ok st'') /\
          (forall c,
              MinVerifiedDealSize <= avc_Allowance params ->
              ResolveToIDAddr rt' (avc_Address params) = Some c ->
              RootKey st' <> c ->
              AddVerifiedClient rt' params st' = Abort ErrNotFound)).
Proof.
  split.
  - intros v Hres Hcaller Habsent. unfold RemoveVerifier, ValidateImmediateCallerIs.
    rewrite Hres. simpl. rewrite (bool_decide_eq_true_2 _ Hcaller). simpl.
    unfold map_Delete. rewrite Habsent. reflexivity.
  - intros st' Hcall.
    apply RemoveVerifier_Ok in Hcall as (v & Hres & _ & Hfound & ->).
    exists v. simpl. split; [exact Hres |]. split; [exact Hfound |].
    split; [apply lookup_delete_eq |].
    split; [intros k Hne; apply lookup_delete_ne; congruence |].
    split; [reflexivity |].
    intros rt' params Hv. split.
    + intros st'' Hadd.
      apply AddVerifiedClient_Ok in Hadd as (c & cap & _ & _ & _ & Hcap & _).
      simpl in Hcap. rewrite Hv, lookup_delete_eq in Hcap. discriminate Hcap.
    + intros c Hge Hres' Hroot.
      unfold AddVerifiedClient, ValidateImmediateCallerAcceptAny. simpl.
      apply Z.ltb_ge in Hge. rewrite Hge. simpl. rewrite Hres'. simpl.
      simpl in Hroot. rewrite (bool_decide_eq_false_2 _ Hroot). simpl.
      rewrite Hv, lookup_delete_eq. reflexivity.
Qed.

(** X5. [RemoveVerifier] undoes [AddVerifier]: after a committed
    [AddVerifier], the same caller removing the same address commits, and
    leaves the state from before the [AddVerifier] when the address was not
    a verifier then. When it was one, its earlier cap is not brought back:
    the address is no verifier any more. *)
Theorem X5_AddVerifier_RemoveVerifier rt params st st' :
  AddVerifier rt params st = Ok st' ->
  exists v st'',
    ResolveToIDAddr rt (av_Address params) = Some v /\
    RemoveVerifier rt (av_Address params) st' = Ok st'' /\
    Verifiers st'' = delete v (Verifiers st) /\
    (Verifiers st !! v = None -> st'' = st).
Proof.
  intros Hadd.
  apply AddVerifier_Ok in Hadd as (v & _ & Hres & Hcaller & _ & _ & ->).
  exists v. eexists. split; [exact Hres |]. split.
  - apply RemoveVerifier_commits with (verifier := v) (cap := av_Allowance params);
      [exact Hres | exact Hcaller | apply lookup_insert_eq].
  - simpl. rewrite delete_insert_eq. split; [reflexivity |].
    intros Habsent. rewrite (delete_id _ _ Habsent). destruct st. reflexivity.
Qed.

(** ** Using and restoring bytes *)

(** X6. On a committed state, [RestoreBytes] with the address and size of
    a committed [UseBytes] commits too. It touches only the cap of that
    client. When the [UseBytes] kept the entry, the state is back to what
    it was before the [UseBytes]; when it deleted the entry, the client
    comes back with the deal size alone, and what is lost is the remainder,
    which is below the minimum. *)
Theorem X6_UseBytes_RestoreBytes rt params st st' :
  reachable st ->
  UseBytes rt params st = Ok st' ->
  exists c cap st'',
    ResolveToIDAddr rt (ub_Address params) = Some c /\
    VerifiedClients st !! c = Some cap /\
    RestoreBytes rt
      {| rb_Address := ub_Address params; rb_DealSize := ub_DealSize params |} st'
    = Ok st'' /\
    RootKey st'' = RootKey st /\
    Verifiers st'' = Verifiers st /\
    (forall k, k <> c -> VerifiedClients st'' !! k = VerifiedClients st !! k) /\
    (MinVerifiedDealSize <= cap - ub_DealSize params -> st'' = st) /\
    (cap - ub_DealSize params < MinVerifiedDealSize ->
     VerifiedClients st'' !! c = Some (ub_DealSize params) /\
     0 <= cap - ub_DealSize params).
Proof.
  intros Hreach Huse.
  destruct (reachable_roles st Hreach) as (Hapart & _ & Hroot).
  apply UseBytes_Ok in Huse
    as (c & cap & Hcaller & Hres & Hge & Hcap & _ & Hle & ->).
  assert (Verifiers st !! c = None) as Hver.
  { destruct (Verifiers st !! c) as [x |] eqn:Hx; [| reflexivity].
    rewrite Hapart in Hcap by (rewrite Hx; eauto). discriminate Hcap. }
  assert (RootKey st <> c) as Hne.
  { intros <-. rewrite Hroot in Hcap. discriminate Hcap. }
  exists c, cap. eexists. split; [exact Hres |]. split; [exact Hcap |]. split.
  { apply RestoreBytes_commits with (client := c); simpl; assumption. }
  simpl. split; [reflexivity |]. split; [reflexivity |].
  destruct (cap - ub_DealSize params <? MinVerifiedDealSize) eqn:Hlow.
  - apply Z.ltb_lt in Hlow. rewrite lookup_delete_eq. simpl. split.
    { intros k Hk. rewrite lookup_insert_ne by congruence.
      apply lookup_delete_ne. congruence. }
    split; [lia |]. intros _. rewrite lookup_insert_eq. split; [reflexivity | lia].
  - apply Z.ltb_ge in Hlow. rewrite lookup_insert_eq. simpl. split.
    { intros k Hk. rewrite !lookup_insert_ne by congruence. reflexivity. }
    split; [| lia]. intros _. rewrite insert_insert_eq.
    replace (cap - ub_DealSize params + ub_DealSize params) with cap by lia.
    rewrite (insert_id _ _ _ Hcap). destruct st. reflexivity.
Qed.

(** ** Adding a verified client *)

(** X7. The allowance of a verified client is given once. While an address
    is a verified client, no [AddVerifiedClient] for it commits, whoever
    calls; and the call that made it a client, made again, aborts with
    [ErrIllegalArgument]. *)
Theorem X7_AddVerifiedClient_once rt params st :
  (forall c,
      ResolveToIDAddr rt (avc_Address params) = Some c ->
      is_Some (VerifiedClients st !! c) ->
      forall st', AddVerifiedClient rt params st <> Ok st') /\
  (forall st',
      AddVerifiedClient rt params st = Ok st' ->
      AddVerifiedClient rt params st' = Abort ErrIllegalArgument).
Proof.
  split.
  - intros c Hres [x Hx] st' Hadd.
    apply AddVerifiedClient_Ok in Hadd as (c' & cap & _ & Hres' & _ & _ & _ & _ & Hnone & _).
    rewrite Hres in Hres'. injection Hres' as <-. rewrite Hx in Hnone.
    discriminate Hnone.
  - intros st' Hadd.
    apply AddVerifiedClient_Ok in Hadd
      as (c & cap & Hge & Hres & Hroot & Hcaller & Hver & _ & _ & ->).
    unfold AddVerifiedClient, ValidateImmediateCallerAcceptAny. simpl.
    apply Z.ltb_ge in Hge. rewrite Hge. simpl. rewrite Hres. simpl.
    rewrite (bool_decide_eq_false_2 _ Hroot). simpl.
    assert (Caller rt <> c) as Hne.
    { intros Heq. rewrite Heq, Hver in Hcaller. discriminate Hcaller. }
    rewrite !lookup_insert_eq, (lookup_insert_ne _ _ _ _ Hne), Hver. simpl.
    destruct (cap - avc_Allowance params <? avc_Allowance params); reflexivity.
Qed.

(** X8. [AddVerifiedClient] never panics. An allowance below the minimum
    aborts with [ErrIllegalArgument]. An allowable allowance with an
    address that does not resolve aborts with the exit code that the error
    of the resolution wraps, and with [ErrIllegalState] when it wraps none.
    When the address resolves, the call never aborts with
    [ErrIllegalState] nor fails a caller validation, and it aborts with
    [ErrNotFound] exactly when the allowance is allowable, the resolved
    address is not the root key, and the caller is not a verifier. *)
Theorem X8_AddVerifiedClient_exit_codes rt params st :
  AddVerifiedClient rt params st <> Panic /\
  (avc_Allowance params < MinVerifiedDealSize ->
   AddVerifiedClient rt params st = Abort ErrIllegalArgument) /\
  (MinVerifiedDealSize <= avc_Allowance params ->
   ResolveToIDAddr rt (avc_Address params) = None ->
   AddVerifiedClient rt params st
   = Abort (exitcode.Unwrap (ResolveToIDAddr_err rt (avc_Address params))
                            ErrIllegalState)) /\
  (forall c,
      ResolveToIDAddr rt (avc_Address params) = Some c ->
      AddVerifiedClient rt params st <> Abort ErrIllegalState /\
      AddVerifiedClient rt params st <> Abort SysErrForbidden /\
      (AddVerifiedClient rt params st = Abort ErrNotFound <->
       MinVerifiedDealSize <= avc_Allowance params /\
       RootKey st <> c /\
       Verifiers st !! Caller rt = None)).
Proof.
  unfold AddVerifiedClient, ValidateImmediateCallerAcceptAny. simpl.
  destruct (avc_Allowance params <? MinVerifiedDealSize) eqn:Hlow; simpl;
    [apply Z.ltb_lt in Hlow | apply Z.ltb_ge in Hlow].
  { repeat apply conj; try discriminate; try reflexivity; naive_solver lia. }
  destruct (ResolveToIDAddr rt (avc_Address params)) as [c |]; simpl;
    [| repeat apply conj; try discriminate; try reflexivity; naive_solver lia].
  destruct (bool_decide (RootKey st = c)) eqn:Hroot; simpl;
    [apply bool_decide_eq_true in Hroot | apply bool_decide_eq_false in Hroot].
  { repeat apply conj; try discriminate; naive_solver lia. }
  destruct (Verifiers st !! Caller rt) as [cap |]; simpl;
    [| repeat apply conj; try discriminate; naive_solver lia].
  repeat match goal with
  | |- context [abort_if ?b _] => destruct b; simpl
  end;
  (repeat apply conj; try discriminate; naive_solver lia).
Qed.

(** X9. Which failure [UseBytes] reports. A caller other than the storage
    market actor fails the caller validation. For the storage market
    actor, an address that does not resolve aborts with the exit code that
    the error of the resolution wraps, and with [ErrIllegalState] when it
    wraps none. When the address resolves: the call never aborts with
    [ErrIllegalState]; it aborts with [ErrNotFound] exactly when the deal
    size is allowable and the address is not a verified client; it panics
    exactly when the deal size is allowable and the cap is negative; it
    aborts with [ErrIllegalArgument] exactly when the deal size is below
    the minimum or above a cap that is not negative. *)
Theorem X9_UseBytes_exit_codes rt params st :
  (Caller rt <> StorageMarketActorAddr ->
   UseBytes rt params st = Abort SysErrForbidden) /\
  (Caller rt = StorageMarketActorAddr ->
   ResolveToIDAddr rt (ub_Address params) = None ->
   UseBytes rt params st
   = Abort (exitcode.Unwrap (ResolveToIDAddr_err rt (ub_Address params))
                            ErrIllegalState)) /\
  (forall c,
      Caller rt = StorageMarketActorAddr ->
      ResolveToIDAddr rt (ub_Address params) = Some c ->
      UseBytes rt params st <> Abort ErrIllegalState /\
      UseBytes rt params st <> Abort SysErrForbidden /\
      (UseBytes rt params st = Abort ErrNotFound <->
       MinVerifiedDealSize <= ub_DealSize params /\
       VerifiedClients st !! c = None) /\
      (UseBytes rt params st = Panic <->
       MinVerifiedDealSize <= ub_DealSize params /\
       exists cap, VerifiedClients st !! c = Some cap /\ cap < 0) /\
      (UseBytes rt params st = Abort ErrIllegalArgument <->
       ub_DealSize params < MinVerifiedDealSize \/
       exists cap, VerifiedClients st !! c = Some cap /\
                   0 <= cap < ub_DealSize params)).
Proof.
  unfold UseBytes, ValidateImmediateCallerIs.
  destruct (bool_decide (Caller rt = StorageMarketActorAddr)) eqn:Hcaller; simpl;
    [apply bool_decide_eq_true in Hcaller | apply bool_decide_eq_false in Hcaller].
  2: { split; [reflexivity |]. split; intros; contradiction. }
  split; [intros; contradiction |]. split.
  { intros _ ->. reflexivity. }
  intros c _ ->. simpl.
  destruct (ub_DealSize params <? MinVerifiedDealSize) eqn:Hlow; simpl;
    [apply Z.ltb_lt in Hlow | apply Z.ltb_ge in Hlow].
  { repeat apply conj; try discriminate; naive_solver lia. }
  destruct (VerifiedClients st !! c) as [cap |] eqn:Hcap; simpl;
    [| repeat apply conj; try discriminate; naive_solver lia].
  destruct (cap >=? 0) eqn:Hpos; simpl; rewrite Z.geb_leb in Hpos;
    [apply Z.leb_le in Hpos | apply Z.leb_gt in Hpos].
  2: { repeat apply conj; try discriminate; naive_solver lia. }
  destruct (ub_DealSize params >? cap) eqn:Hover; simpl; rewrite Z.gtb_ltb in Hover;
    [apply Z.ltb_lt in Hover | apply Z.ltb_ge in Hover];
    repeat apply conj; try discriminate; naive_solver lia.
Qed.

(** X10. A verifier whose cap is below the minimum cannot fund a client:
    none of its [AddVerifiedClient] calls commits, and the abort is
    [ErrIllegalArgument] whenever the address resolves. The entry of the
    verifier is not removed for that. *)
Theorem X10_low_verifier_cannot_fund rt params st cap :
  Verifiers st !! Caller rt = Some cap ->
  cap < MinVerifiedDealSize ->
  (forall st', AddVerifiedClient rt params st <> Ok st') /\
  (is_Some (ResolveToIDAddr rt (avc_Address params)) ->
   AddVerifiedClient rt params st = Abort ErrIllegalArgument).
Proof.
  intros Hcap Hlow. split.
  - intros st' Hadd.
    apply AddVerifiedClient_Ok in Hadd as (c & cap' & Hge & _ & _ & Hcap' & _ & Hle & _).
    rewrite Hcap in Hcap'. injection Hcap' as <-. lia.
  - intros [c Hres]. unfold AddVerifiedClient, ValidateImmediateCallerAcceptAny.
    simpl. rewrite Hres, Hcap.
    destruct (avc_Allowance params <? MinVerifiedDealSize) eqn:Hsmall; simpl;
      [reflexivity | apply Z.ltb_ge in Hsmall].
    destruct (bool_decide (RootKey st = c)); simpl; [reflexivity |].
    destruct (bool_decide (is_Some (Verifiers st !! c))); simpl; [reflexivity |].
    assert ((cap <? avc_Allowance params) = true) as -> by (apply Z.ltb_lt; lia).
    reflexivity.
Qed.

(** ** The DataCap in circulation *)

Import accounting.

Lemma total_delete (m : gmap string Z) k :
  total (delete k m) = total m - cap_of m k.
Proof.
  unfold total, cap_of. destruct (m !! k) as [x |] eqn:Hk; simpl.
  - rewrite (map_fold_delete_L _ _ k x m); [lia | intros; lia | exact Hk].
  - rewrite (delete_id _ _ Hk). lia.
Qed.

Lemma total_insert (m : gmap string Z) k v :
  total (<[k := v]> m) = total m - cap_of m k + v.
Proof.
  rewrite <- insert_delete_eq. unfold total at 1.
  rewrite map_fold_insert_L; [| intros; lia | apply lookup_delete_eq].
  fold (total (delete k m)). rewrite total_delete. lia.
Qed.

(** X11. How a committed call changes the sums of the caps.
    [AddVerifiedClient] moves the allowance from the verifiers to the
    clients and leaves the sum of all caps as it was. [UseBytes] takes at
    least the deal size from the clients, and exactly the deal size when it
    keeps the entry. [RestoreBytes] adds exactly the deal size to the
    clients. [AddVerifier] and [RemoveVerifier] replace or drop the cap of
    one verifier. *)
Theorem X11_totals rt m st st' :
  invoke rt m st = Ok st' ->
  match m with
  | MAddVerifiedClient params =>
      total (Verifiers st') = total (Verifiers st) - avc_Allowance params /\
      total (VerifiedClients st') = total (VerifiedClients st) + avc_Allowance params /\
      total (Verifiers st') + total (VerifiedClients st')
      = total (Verifiers st) + total (VerifiedClients st)
  | MUseBytes params =>
      total (Verifiers st') = total (Verifiers st) /\
      total (VerifiedClients st') <= total (VerifiedClients st) - ub_DealSize params /\
      (forall c cap,
          ResolveToIDAddr rt (ub_Address params) = Some c ->
          VerifiedClients st !! c = Some cap ->
          MinVerifiedDealSize <= cap - ub_DealSize params ->
          total (VerifiedClients st')
          = total (VerifiedClients st) - ub_DealSize params)
  | MRestoreBytes params =>
      total (Verifiers st') = total (Verifiers st) /\
      total (VerifiedClients st') = total (VerifiedClients st) + rb_DealSize params
  | MAddVerifier params =>
      total (VerifiedClients st') = total (VerifiedClients st) /\
      forall v, ResolveToIDAddr rt (av_Address params) = Some v ->
        total (Verifiers st')
        = total (Verifiers st) - cap_of (Verifiers st) v + av_Allowance params
  | MRemoveVerifier verifierAddr =>
      total (VerifiedClients st') = total (VerifiedClients st) /\
      forall v, ResolveToIDAddr rt verifierAddr = Some v ->
        total (Verifiers st') = total (Verifiers st) - cap_of (Verifiers st) v
  end.
Proof.
  intros Hcall. destruct m as [p | va | p | p | p]; simpl in Hcall.
  - apply AddVerifier_Ok in Hcall as (a & _ & Hres & _ & _ & _ & ->). simpl.
    split; [reflexivity |]. intros v Hv. rewrite Hres in Hv. injection Hv as <-.
    apply total_insert.
  - apply RemoveVerifier_Ok in Hcall as (a & Hres & _ & _ & ->). simpl.
    split; [reflexivity |]. intros v Hv. rewrite Hres in Hv. injection Hv as <-.
    apply total_delete.
  - apply AddVerifiedClient_Ok in Hcall
      as (c & cap & _ & _ & _ & Hcaller & _ & _ & Hfresh & ->). simpl.
    rewrite !total_insert. unfold cap_of. rewrite Hcaller, Hfresh. simpl. lia.
  - apply UseBytes_Ok in Hcall as (c & cap & _ & Hres & _ & Hcap & _ & Hle & ->).
    simpl. split; [reflexivity |].
    destruct (cap - ub_DealSize p <? MinVerifiedDealSize) eqn:Hlow.
    + apply Z.ltb_lt in Hlow. rewrite total_delete. unfold cap_of. rewrite Hcap.
      simpl. split; [lia |]. intros c' cap' Hc' Hcap' Hkeep.
      rewrite Hres in Hc'. injection Hc' as <-. rewrite Hcap in Hcap'.
      injection Hcap' as <-. lia.
    + rewrite total_insert. unfold cap_of. rewrite Hcap. simpl.
      split; [lia |]. intros. lia.
  - apply RestoreBytes_Ok in Hcall as (c & _ & _ & _ & _ & _ & ->). simpl.
    split; [reflexivity |]. rewrite total_insert. unfold cap_of. lia.
Qed.

(** ** Clients can always spend *)

(** X18. When the minimum deal size is not negative, every verified client
    of a committed state holds at least the minimum, and the storage market
    actor can use any number of its bytes from the minimum up to its cap:
    the call commits. *)
Theorem X18_client_can_use_bytes st c cap :
  0 <= MinVerifiedDealSize ->
  reachable st ->
  VerifiedClients st !! c = Some cap ->
  MinVerifiedDealSize <= cap /\
  forall rt params,
    Caller rt = StorageMarketActorAddr ->
    ResolveToIDAddr rt (ub_Address params) = Some c ->
    MinVerifiedDealSize <= ub_DealSize params <= cap ->
    exists st', UseBytes rt params st = Ok st'.
Proof.
  intros Hmin Hreach Hcap.
  pose proof (reachable_client_floor st Hmin Hreach c cap Hcap) as Hfloor.
  split; [exact Hfloor |]. intros rt params Hcaller Hres [Hge Hle].
  eexists. apply UseBytes_commits with (client := c) (vcCap := cap);
    [exact Hcaller | exact Hres | exact Hge | exact Hcap | lia | exact Hle].
Qed.

End VerifregCalls.

(** * Further properties of the block stores *)

Section BlockStores.

Import ipld.
Import trace.

Local Open Scope Z_scope.

(** ** The in-memory store *)

(** X12. In the in-memory store a [Put] never fails, a [Get] never changes
    the store, a block that was put is what a [Get] of its cid returns, the
    other cids read as before the [Put], and a cid the store does not hold
    gives a nil block with an error. The new store holds nothing. *)
Theorem X12_BlockStoreInMemory_put_get (mb : BlockStoreInMemory) (b : block.Block) :
  let mb' := fst (Put mb b) in
  snd (Put mb b) = Returns None /\
  Get mb' (block.Cid b) = (mb', Returns (Some b, None)) /\
  (forall c, c <> block.Cid b -> snd (Get mb' c) = snd (Get mb c)) /\
  (forall c, fst (Get mb c) = mb) /\
  (forall c, data mb !! c = None ->
     snd (Get mb c) = Returns (None, Some "not found"%string)) /\
  (forall c, snd (Get NewBlockStoreInMemory c)
             = Returns (None, Some "not found"%string)).
Proof.
  simpl. repeat apply conj.
  - reflexivity.
  - rewrite lookup_insert_eq. reflexivity.
  - intros c Hne. rewrite lookup_insert_ne by congruence.
    destruct (data mb !! c); reflexivity.
  - intros c. destruct (data mb !! c); reflexivity.
  - intros c ->. reflexivity.
  - intros c. rewrite lookup_empty. reflexivity.
Qed.

(** X13. In the in-memory store the last [Put] of a cid wins: putting a
    second block with the cid of the first leaves the store that the second
    [Put] alone gives, so that putting a block twice is putting it once;
    and two [Put]s of different cids give the same store in either
    order. *)
Theorem X13_BlockStoreInMemory_put_put (mb : BlockStoreInMemory) (b1 b2 : block.Block) :
  (block.Cid b1 = block.Cid b2 ->
   fst (Put (fst (Put mb b1)) b2) = fst (Put mb b2)) /\
  fst (Put (fst (Put mb b1)) b1) = fst (Put mb b1) /\
  (block.Cid b1 <> block.Cid b2 ->
   fst (Put (fst (Put mb b1)) b2) = fst (Put (fst (Put mb b2)) b1)).
Proof.
  simpl. repeat apply conj.
  - intros ->. rewrite insert_insert_eq. reflexivity.
  - rewrite insert_insert_eq. reflexivity.
  - intros Hne. rewrite insert_insert_ne by congruence. reflexivity.
Qed.

Lemma run_cons {S : Type} `{IpldBlockstore S} (s : S) o ops :
  run s (o :: ops) = run (step s o) ops.
Proof. reflexivity. Qed.

Lemma run_snoc {S : Type} `{IpldBlockstore S} (s : S) o ops :
  run s (ops ++ [o]) = step (run s ops) o.
Proof. unfold run. rewrite foldl_app. reflexivity. Qed.

Lemma BlockStoreInMemory_keys ops :
  forall c d, data (run NewBlockStoreInMemory ops) !! c = Some d -> block.Cid d = c.
Proof.
  induction ops as [| o ops IH] using rev_ind; intros c d.
  - simpl. rewrite lookup_empty. discriminate.
  - rewrite run_snoc. destruct o as [c' | b]; simpl.
    + destruct (data (run NewBlockStoreInMemory ops) !! c'); simpl; apply IH.
    + destruct (decide (block.Cid b = c)) as [<- | Hne].
      * rewrite lookup_insert_eq. intros [= <-]. reflexivity.
      * rewrite lookup_insert_ne by exact Hne. apply IH.
Qed.

(** X14. Whatever was done to an in-memory store since it was made, a
    [Get] returns either a block and no error, and then the block has the
    cid that was asked for, or no block and an error. So a [Get] of the
    metrics wrapper around it does not panic. *)
Theorem X14_BlockStoreInMemory_get_sound ops c :
  let mb := run NewBlockStoreInMemory ops in
  ((exists d, snd (Get mb c) = Returns (Some d, None) /\ block.Cid d = c) \/
   (exists err, snd (Get mb c) = Returns (None, Some err))) /\
  forall (ms : MetricsBlockStore BlockStoreInMemory),
    ms_bs ms = mb -> snd (MetricsBlockStore_Get ms c) <> Panics.
Proof.
  intros mb. pose proof (BlockStoreInMemory_keys ops c) as Hkeys. fold mb in Hkeys.
  split.
  - simpl. destruct (data mb !! c) as [d |] eqn:Hd; simpl.
    + left. exists d. split; [reflexivity | apply Hkeys; reflexivity].
    + right. eexists. reflexivity.
  - intros ms Hms. unfold MetricsBlockStore_Get. rewrite Hms. simpl.
    destruct (data mb !! c); simpl; discriminate.
Qed.

(** ** The wrappers *)

Lemma SyncBlockStore_step {S : Type} `{IpldBlockstore S} (ss : SyncBlockStore S) o :
  ss_bs (step ss o) = step (ss_bs ss) o.
Proof.
  destruct o as [c | b]; simpl.
  - destruct (Get (ss_bs ss) c) as [bs r]. reflexivity.
  - destruct (Put (ss_bs ss) b) as [bs r]. reflexivity.
Qed.

(** X15. The synchronising wrapper changes nothing that a sequential
    caller sees: after any sequence of calls it wraps the store that the
    same calls give on the wrapped store, and each of its calls returns what
    the wrapped store returns. *)
Theorem X15_SyncBlockStore_transparent {S : Type} `{IpldBlockstore S}
    (ss : SyncBlockStore S) (ops : list Op) :
  ss_bs (run ss ops) = run (ss_bs ss) ops /\
  (forall c, snd (Get (run ss ops) c) = snd (Get (run (ss_bs ss) ops) c)) /\
  (forall b, snd (Put (run ss ops) b) = snd (Put (run (ss_bs ss) ops) b)).
Proof.
  assert (ss_bs (run ss ops) = run (ss_bs ss) ops) as Hrun.
  { revert ss. induction ops as [| o ops IH]; intros ss; [reflexivity |].
    rewrite !run_cons, IH, SyncBlockStore_step. reflexivity. }
  split; [exact Hrun |]. split.
  - intros c. simpl. rewrite Hrun.
    destruct (Get (run (ss_bs ss) ops) c) as [bs r]. reflexivity.
  - intros b. simpl. rewrite Hrun.
    destruct (Put (run (ss_bs ss) ops) b) as [bs r]. reflexivity.
Qed.

Lemma uint64_is_uint64 z : is_uint64 (uint64 z).
Proof. unfold is_uint64, uint64. apply Z.mod_pos_bound. lia. Qed.

Lemma uint64_id z : is_uint64 z -> uint64 z = z.
Proof. unfold is_uint64, uint64. intros Hz. apply Z.mod_small. exact Hz. Qed.

Lemma uint64_add_l a b : uint64 (uint64 a + b) = uint64 (a + b).
Proof. unfold uint64. apply Zplus_mod_idemp_l. Qed.

Lemma MetricsBlockStore_step {S : Type} `{IpldBlockstore S}
    (ms : MetricsBlockStore S) o :
  is_uint64 (ReadBytes ms) ->
  ms_bs (step ms o) = step (ms_bs ms) o /\
  Writes (step ms o) = (if is_put o then uint64 (Writes ms + 1) else Writes ms) /\
  WriteBytes (step ms o)
  = match o with
    | OpPut b => uint64 (WriteBytes ms + size b)
    | OpGet _ => WriteBytes ms
    end /\
  Reads (step ms o) = (if is_put o then Reads ms else uint64 (Reads ms + 1)) /\
  is_uint64 (ReadBytes (step ms o)).
Proof.
  intros Hrange. destruct o as [c | b]; simpl.
  - unfold MetricsBlockStore_Get. destruct (Get (ms_bs ms) c) as [bs r]. simpl.
    destruct r as [[[blk |] [err |]] |]; simpl;
      refine (conj _ (conj _ (conj _ (conj _ _)))); try reflexivity;
      try exact Hrange.
    apply uint64_is_uint64.
  - unfold MetricsBlockStore_Put. destruct (Put (ms_bs ms) b) as [bs r]. simpl.
    refine (conj _ (conj _ (conj _ (conj _ _)))); try reflexivity. exact Hrange.
Qed.

Lemma MetricsBlockStore_run {S : Type} `{IpldBlockstore S} (ops : list Op) :
  forall ms : MetricsBlockStore S,
    is_uint64 (Writes ms) -> is_uint64 (WriteBytes ms) ->
    is_uint64 (Reads ms) -> is_uint64 (ReadBytes ms) ->
    ms_bs (run ms ops) = run (ms_bs ms) ops /\
    Writes (run ms ops) = uint64 (Writes ms + puts ops) /\
    WriteBytes (run ms ops) = uint64 (WriteBytes ms + put_bytes ops) /\
    Reads (run ms ops) = uint64 (Reads ms + gets ops) /\
    is_uint64 (ReadBytes (run ms ops)).
Proof.
  induction ops as [| o ops IH]; intros ms Hw Hwb Hr Hrb.
  - simpl. rewrite !Z.add_0_r, !uint64_id by assumption. auto.
  - destruct (MetricsBlockStore_step ms o Hrb) as (Hbs & Hw' & Hwb' & Hr' & Hrb').
    rewrite !run_cons.
    destruct (IH (step ms o)) as (IHbs & IHw & IHwb & IHr & IHrb).
    + rewrite Hw'. destruct (is_put o); [apply uint64_is_uint64 | exact Hw].
    + rewrite Hwb'. destruct o; [exact Hwb | apply uint64_is_uint64].
    + rewrite Hr'. destruct (is_put o); [exact Hr | apply uint64_is_uint64].
    + exact Hrb'.
    + rewrite IHbs, IHw, IHwb, IHr, Hbs, Hw', Hwb', Hr'.
      split; [reflexivity |]. unfold puts, put_bytes, gets. simpl.
      fold (puts ops) (put_bytes ops) (gets ops).
      destruct o as [c | b]; simpl;
        refine (conj _ (conj _ (conj _ _))); try exact IHrb;
        rewrite ?uint64_add_l; f_equal; lia.
Qed.

(** X16. A new metrics wrapper that has served a sequence of calls wraps
    the store that the same calls give on the wrapped store, has counted
    the [Put]s, the bytes of the blocks put and the [Get]s of the
    sequence, each modulo 2^64, whatever the calls returned, and its read
    bytes are a [uint64] value. *)
Theorem X16_MetricsBlockStore_counts {S : Type} `{IpldBlockstore S}
    (underlying : S) (ops : list Op) :
  let ms := run (NewMetricsBlockStore underlying) ops in
  ms_bs ms = run underlying ops /\
  WriteCount ms = uint64 (puts ops) /\
  WriteSize ms = uint64 (put_bytes ops) /\
  ReadCount ms = uint64 (gets ops) /\
  is_uint64 (ReadSize ms).
Proof.
  assert (is_uint64 0) as Hzero by (unfold is_uint64; lia).
  exact (MetricsBlockStore_run ops (NewMetricsBlockStore underlying)
           Hzero Hzero Hzero Hzero).
Qed.

(** X17. The wrappers stack. Through a metrics wrapper around a
    synchronising wrapper around an in-memory store, a [Put] succeeds, a
    [Get] of the cid of the block then returns the block, the in-memory
    store holds the block under its cid, and the write bytes and the read
    bytes have each grown by the size of the block. *)
Theorem X17_stacked_put_get
    (ms : MetricsBlockStore (SyncBlockStore BlockStoreInMemory)) (b : block.Block) :
  let put := Put ms b in
  let get := Get (fst put) (block.Cid b) in
  snd put = Returns None /\
  snd get = Returns (Some b, None) /\
  data (ss_bs (ms_bs (fst get))) = <[block.Cid b := b]> (data (ss_bs (ms_bs ms))) /\
  WriteCount (fst get) = uint64 (WriteCount ms + 1) /\
  WriteSize (fst get) = uint64 (WriteSize ms + size b) /\
  ReadCount (fst get) = uint64 (ReadCount ms + 1) /\
  ReadSize (fst get) = uint64 (ReadSize ms + size b).
Proof.
  simpl. unfold MetricsBlockStore_Get, MetricsBlockStore_Put. simpl.
  rewrite lookup_insert_eq. simpl. repeat apply conj; reflexivity.
Qed.

End BlockStores.

(** * The further properties on the scenario *)

Section ScenarioMore.

Import verifreg.
Import accounting.
Import ipld.
Import trace.

Local Open Scope Z_scope.
Local Existing Instance scenario.constants.

Lemma scenario_without_verifier :
  RemoveVerifier (scenario.runtime scenario.R) scenario.V scenario.with_client
  = Ok scenario_more.without_verifier.
Proof. vm_compute. reflexivity. Qed.

Lemma X1_invoke_frame_witness :
  RootKey scenario.with_client = RootKey scenario.with_verifier /\
  dom (Verifiers scenario.with_client) = dom (Verifiers scenario.with_verifier) /\
  forall k, k <> scenario.V ->
    Verifiers scenario.with_client !! k = Verifiers scenario.with_verifier !! k.
Proof.
  exact (X1_invoke_frame (scenario.runtime scenario.V)
           (MAddVerifiedClient {| avc_Address := scenario.C; avc_Allowance := 4000 |})
           scenario.with_verifier scenario.with_client scenario_with_client).
Defined.

Lemma X2_committed_caller_authorised_witness :
  is_Some (Verifiers scenario.with_verifier !! scenario.V).
Proof.
  exact (X2_committed_caller_authorised (scenario.runtime scenario.V)
           (MAddVerifiedClient {| avc_Address := scenario.C; avc_Allowance := 4000 |})
           scenario.with_verifier scenario.with_client scenario_with_client).
Defined.

Lemma X3_first_call_witness :
  (exists params v,
      MAddVerifier {| av_Address := scenario.V; av_Allowance := 10000 |}
      = MAddVerifier params /\
      Verifiers scenario.with_verifier = {[v := av_Allowance params]} /\
      VerifiedClients scenario.with_verifier = ∅) \/
  (exists params c,
      MAddVerifier {| av_Address := scenario.V; av_Allowance := 10000 |}
      = MRestoreBytes params /\
      Verifiers scenario.with_verifier = ∅ /\
      VerifiedClients scenario.with_verifier = {[c := rb_DealSize params]}).
Proof.
  exact (X3_first_call (scenario.runtime "f00") scenario.R scenario.constructed
           (scenario.runtime scenario.R)
           (MAddVerifier {| av_Address := scenario.V; av_Allowance := 10000 |})
           scenario.with_verifier scenario_constructed scenario_with_verifier).
Defined.

Lemma X4_RemoveVerifier_effect_witness :
  RemoveVerifier (scenario.runtime scenario.R) scenario.X scenario.with_client
  = Abort ErrIllegalState /\
  exists v,
    scenario.resolve scenario.V = Some v /\
    is_Some (Verifiers scenario.with_client !! v) /\
    Verifiers scenario_more.without_verifier !! v = None.
Proof.
  split.
  - apply (proj1 (X4_RemoveVerifier_effect (scenario.runtime scenario.R) scenario.X
                    scenario.with_client) scenario.X).
    + reflexivity.
    + reflexivity.
    + vm_compute. reflexivity.
  - destruct (proj2 (X4_RemoveVerifier_effect (scenario.runtime scenario.R)
                       scenario.V scenario.with_client)
                scenario_more.without_verifier scenario_without_verifier)
      as (v & Hres & Hwas & Hgone & _).
    exists v. split; [exact Hres | split; [exact Hwas | exact Hgone]].
Defined.

Lemma X5_AddVerifier_RemoveVerifier_witness :
  exists v st'',
    scenario.resolve scenario.V = Some v /\
    RemoveVerifier (scenario.runtime scenario.R) scenario.V scenario.with_verifier
    = Ok st'' /\
    Verifiers st'' = delete v (Verifiers scenario.constructed) /\
    (Verifiers scenario.constructed !! v = None -> st'' = scenario.constructed).
Proof.
  exact (X5_AddVerifier_RemoveVerifier (scenario.runtime scenario.R)
           {| av_Address := scenario.V; av_Allowance := 10000 |}
           scenario.constructed scenario.with_verifier scenario_with_verifier).
Defined.

Lemma X6_UseBytes_RestoreBytes_witness :
  exists c cap st'',
    scenario.resolve scenario.C = Some c /\
    VerifiedClients scenario.with_client !! c = Some cap /\
    RestoreBytes (scenario.runtime "f05")
      {| rb_Address := scenario.C; rb_DealSize := 3500 |} scenario.drained
    = Ok st'' /\
    RootKey st'' = RootKey scenario.with_client /\
    Verifiers st'' = Verifiers scenario.with_client /\
    (forall k, k <> c ->
       VerifiedClients st'' !! k = VerifiedClients scenario.with_client !! k) /\
    (1024 <= cap - 3500 -> st'' = scenario.with_client) /\
    (cap - 3500 < 1024 ->
     VerifiedClients st'' !! c = Some 3500 /\ 0 <= cap - 3500).
Proof.
  exact (X6_UseBytes_RestoreBytes (scenario.runtime "f05")
           {| ub_Address := scenario.C; ub_DealSize := 3500 |}
           scenario.with_client scenario.drained
           scenario_reachable scenario_drained).
Defined.

Lemma X7_AddVerifiedClient_once_witness :
  AddVerifiedClient (scenario.runtime scenario.V)
    {| avc_Address := scenario.C; avc_Allowance := 4000 |} scenario.with_client
  = Abort ErrIllegalArgument.
Proof.
  apply (proj2 (X7_AddVerifiedClient_once (scenario.runtime scenario.V)
                  {| avc_Address := scenario.C; avc_Allowance := 4000 |}
                  scenario.with_verifier) scenario.with_client).
  exact scenario_with_client.
Defined.

Lemma X8_AddVerifiedClient_exit_codes_witness :
  AddVerifiedClient (scenario.runtime scenario.X)
    {| avc_Address := scenario.C; avc_Allowance := 2000 |} scenario.constructed
  = Abort ErrNotFound /\
  AddVerifiedClient (scenario_more.runtime_send_fails scenario.V)
    {| avc_Address := scenario.unknown; avc_Allowance := 2000 |}
    scenario.with_verifier
  = Abort ErrNotFound.
Proof.
  split.
  - destruct (X8_AddVerifiedClient_exit_codes (scenario.runtime scenario.X)
                {| avc_Address := scenario.C; avc_Allowance := 2000 |}
                scenario.constructed) as (_ & _ & _ & Hresolved).
    destruct (Hresolved scenario.C eq_refl) as (_ & _ & Hnotfound).
    apply Hnotfound. split; [simpl; lia |]. split.
    + simpl. discriminate.
    + vm_compute. reflexivity.
  - destruct (X8_AddVerifiedClient_exit_codes
                (scenario_more.runtime_send_fails scenario.V)
                {| avc_Address := scenario.unknown; avc_Allowance := 2000 |}
                scenario.with_verifier) as (_ & _ & Hunresolved & _).
    apply Hunresolved; [simpl; lia | reflexivity].
Defined.

Lemma X9_UseBytes_exit_codes_witness :
  UseBytes (scenario.runtime "f05")
    {| ub_Address := scenario.X; ub_DealSize := 2000 |} scenario.with_client
  = Abort ErrNotFound /\
  UseBytes (scenario_more.runtime_send_fails "f05")
    {| ub_Address := scenario.unknown; ub_DealSize := 2000 |} scenario.with_client
  = Abort ErrNotFound /\
  UseBytes (scenario.runtime "f05")
    {| ub_Address := scenario.unknown; ub_DealSize := 2000 |} scenario.with_client
  = Abort ErrIllegalState.
Proof.
  assert ("f05"%string = StorageMarketActorAddr) as Hmarket by reflexivity.
  split; [| split].
  - destruct (X9_UseBytes_exit_codes (scenario.runtime "f05")
                {| ub_Address := scenario.X; ub_DealSize := 2000 |}
                scenario.with_client) as (_ & _ & Hresolved).
    destruct (Hresolved scenario.X Hmarket eq_refl) as (_ & _ & Hnotfound & _).
    apply Hnotfound. split; [simpl; lia | vm_compute; reflexivity].
  - destruct (X9_UseBytes_exit_codes (scenario_more.runtime_send_fails "f05")
                {| ub_Address := scenario.unknown; ub_DealSize := 2000 |}
                scenario.with_client) as (_ & Hunresolved & _).
    apply Hunresolved; [exact Hmarket | reflexivity].
  - destruct (X9_UseBytes_exit_codes (scenario.runtime "f05")
                {| ub_Address := scenario.unknown; ub_DealSize := 2000 |}
                scenario.with_client) as (_ & Hunresolved & _).
    apply Hunresolved; [exact Hmarket | reflexivity].
Defined.

Lemma X10_low_verifier_cannot_fund_witness :
  AddVerifiedClient (scenario.runtime scenario.V)
    {| avc_Address := "f0103"; avc_Allowance := 1024 |} scenario_more.low_verifier
  = Abort ErrIllegalArgument.
Proof.
  apply (X10_low_verifier_cannot_fund (scenario.runtime scenario.V)
           {| avc_Address := "f0103"; avc_Allowance := 1024 |}
           scenario_more.low_verifier 500).
  - vm_compute. reflexivity.
  - simpl. lia.
  - simpl. eauto.
Defined.

Lemma X11_totals_witness :
  total (Verifiers scenario.with_client)
  = total (Verifiers scenario.with_verifier) - 4000 /\
  total (VerifiedClients scenario.with_client)
  = total (VerifiedClients scenario.with_verifier) + 4000 /\
  total (Verifiers scenario.with_client) + total (VerifiedClients scenario.with_client)
  = total (Verifiers scenario.with_verifier)
    + total (VerifiedClients scenario.with_verifier).
Proof.
  exact (X11_totals (scenario.runtime scenario.V)
           (MAddVerifiedClient {| avc_Address := scenario.C; avc_Allowance := 4000 |})
           scenario.with_verifier scenario.with_client scenario_with_client).
Defined.

Lemma X18_client_can_use_bytes_witness :
  1024 <= 4000 /\
  exists st',
    UseBytes (scenario.runtime "f05")
      {| ub_Address := scenario.C; ub_DealSize := 1024 |} scenario.with_client
    = Ok st'.
Proof.
  destruct (X18_client_can_use_bytes scenario.with_client scenario.C 4000)
    as [Hfloor Huse].
  - simpl. lia.
  - exact scenario_reachable.
  - vm_compute. reflexivity.
  - split; [exact Hfloor |].
    apply (Huse (scenario.runtime "f05")
             {| ub_Address := scenario.C; ub_DealSize := 1024 |}).
    + reflexivity.
    + reflexivity.
    + simpl. lia.
Defined.

Lemma X12_BlockStoreInMemory_put_get_witness :
  Get (fst (Put NewBlockStoreInMemory sample)) "sample"
  = (fst (Put NewBlockStoreInMemory sample), Returns (Some sample, None)) /\
  snd (Get NewBlockStoreInMemory "sample")
  = Returns (None, Some "not found"%string).
Proof.
  destruct (X12_BlockStoreInMemory_put_get NewBlockStoreInMemory sample)
    as (_ & Hget & _ & _ & Hmiss & _).
  split; [exact Hget |]. apply (Hmiss "sample"%string). reflexivity.
Defined.

Lemma X13_BlockStoreInMemory_put_put_witness :
  let other := {| block.RawData := []; block.Cid := "sample" |} in
  fst (Put (fst (Put NewBlockStoreInMemory sample)) other)
  = fst (Put NewBlockStoreInMemory other).
Proof.
  intros other.
  apply (proj1 (X13_BlockStoreInMemory_put_put NewBlockStoreInMemory sample other)).
  reflexivity.
Defined.

Lemma X14_BlockStoreInMemory_get_sound_witness :
  snd (MetricsBlockStore_Get
         (NewMetricsBlockStore (run NewBlockStoreInMemory scenario_more.ops))
         "sample")
  <> Panics.
Proof.
  apply (proj2 (X14_BlockStoreInMemory_get_sound scenario_more.ops "sample")).
  reflexivity.
Defined.

Lemma X15_SyncBlockStore_transparent_witness :
  ss_bs (run (NewSyncBlockStore NewBlockStoreInMemory) scenario_more.ops)
  = run NewBlockStoreInMemory scenario_more.ops.
Proof.
  exact (proj1 (X15_SyncBlockStore_transparent
                  (NewSyncBlockStore NewBlockStoreInMemory) scenario_more.ops)).
Defined.

Lemma X16_MetricsBlockStore_counts_witness :
  let ms := run (NewMetricsBlockStore failing) scenario_more.ops in
  ms_bs ms = run failing scenario_more.ops /\
  WriteCount ms = uint64 (puts scenario_more.ops) /\
  WriteSize ms = uint64 (put_bytes scenario_more.ops) /\
  ReadCount ms = uint64 (gets scenario_more.ops) /\
  is_uint64 (ReadSize ms).
Proof.
  exact (X16_MetricsBlockStore_counts failing scenario_more.ops).
Defined.

Lemma X17_stacked_put_get_witness :
  let ms := NewMetricsBlockStore (NewSyncBlockStore NewBlockStoreInMemory) in
  snd (Get (fst (Put ms sample)) "sample") = Returns (Some sample, None).
Proof.
  intros ms. destruct (X17_stacked_put_get ms sample) as (_ & Hget & _).
  exact Hget.
Defined.

(** The counters of the sequence on the refusing store and on the
    in-memory store. *)
Example metrics_run_refusing :
  let ms := run (NewMetricsBlockStore failing) scenario_more.ops in
  (WriteCount ms, WriteSize ms, ReadCount ms, ReadSize ms) = (1, 3, 2, 0).
Proof. reflexivity. Qed.

Example metrics_run_in_memory :
  let ms := run (NewMetricsBlockStore NewBlockStoreInMemory) scenario_more.ops in
  (WriteCount ms, WriteSize ms, ReadCount ms, ReadSize ms) = (1, 3, 2, 3).
Proof. vm_compute. reflexivity. Qed.

End ScenarioMore.
